(** * dashboard-aggregator: feeds, configuration and request handlers

    A shallow embedding of [src/configuration.js] and [src/index.js].
    JavaScript values are a small inductive type, exceptions and settled
    promises are an error type, the log and the tracing span are an explicit
    event list threaded through the handlers. *)

From Stdlib Require Import ZArith String Ascii List Lia.
From stdpp Require Import base option list gmap strings pretty.

Set Warnings "-register-all".
Local Open Scope string_scope.
Local Open Scope list_scope.
Local Open Scope Z_scope.

(** ** JavaScript values *)

Module Js.

(** Numbers are the integers and NaN. The model follows the engine on the
    safe integers, of magnitude up to 2^53 - 1: beyond them the engine
    rounds to a double, prints large values with an exponent and has
    [Infinity], none of which is modelled, and the properties that depend
    on a number bound it. *)
Inductive JsVal : Type :=
| JUndefined
| JNull
| JBool (b : bool)
| JNum (n : Z)
| JNaN
| JStr (s : string)
| JArr (xs : list JsVal)
| JObj (fields : list (string * JsVal)).

(** The value of a thrown [Error]: its [name] and its [message]. *)
Record JsError : Type := mkError { err_name : string; err_message : string }.

(** [Error(msg)] *)
Definition Error (msg : string) : JsError := mkError "Error" msg.

(** The engine's [TypeError]. *)
Definition TypeError (msg : string) : JsError := mkError "TypeError" msg.

(** [Error.prototype.toString]. *)
Definition error_to_string (e : JsError) : string :=
  if String.eqb (err_name e) "" then err_message e
  else if String.eqb (err_message e) "" then err_name e
  else err_name e +:+ ": " +:+ err_message e.

(** The result of evaluating something that may throw; also the state of a
    settled promise ([Returned] = fulfilled, [Thrown] = rejected). *)
Inductive Outcome (A : Type) : Type :=
| Returned (a : A)
| Thrown (e : JsError).
Arguments Returned {A} a.
Arguments Thrown {A} e.

#[global] Instance outcome_ret : MRet Outcome := fun A a => Returned a.
#[global] Instance outcome_bind : MBind Outcome := fun A B f m =>
  match m with
  | Returned a => f a
  | Thrown e => Thrown e
  end.
#[global] Instance outcome_fmap : FMap Outcome := fun A B f m =>
  match m with
  | Returned a => Returned (f a)
  | Thrown e => Thrown e
  end.

Definition throw {A : Type} (e : JsError) : Outcome A := Thrown e.

(** The evaluation ends in an exception. *)
Definition throws {A : Type} (m : Outcome A) : Prop := exists e, m = Thrown e.

(** [ToBoolean]. *)
Definition truthy (v : JsVal) : bool :=
  match v with
  | JUndefined | JNull | JNaN => false
  | JBool b => b
  | JNum n => negb (n =? 0)
  | JStr s => negb (String.eqb s "")
  | JArr _ | JObj _ => true
  end.

(** [x === null] *)
Definition is_null (v : JsVal) : bool :=
  match v with JNull => true | _ => false end.

(** [x == null], the test behind [??] and [?.] *)
Definition nullish (v : JsVal) : bool :=
  match v with JUndefined | JNull => true | _ => false end.

(** [a || b] *)
Definition js_or (a b : JsVal) : JsVal := if truthy a then a else b.

(** [a ?? b] *)
Definition js_coalesce (a b : JsVal) : JsVal := if nullish a then b else a.

Fixpoint assoc (k : string) (fields : list (string * JsVal)) : option JsVal :=
  match fields with
  | [] => None
  | (k', v) :: rest => if String.eqb k k' then Some v else assoc k rest
  end.

(** [ToString]; an array joins its elements with commas, printing
    [undefined] and [null] elements as the empty string. A number is
    printed in plain decimal, which is what the engine prints for the safe
    integers. *)
Fixpoint to_string (v : JsVal) : string :=
  match v with
  | JUndefined => "undefined"
  | JNull => "null"
  | JBool true => "true"
  | JBool false => "false"
  | JNum n => pretty n
  | JNaN => "NaN"
  | JStr s => s
  | JArr xs =>
      (fix join (l : list JsVal) : string :=
         match l with
         | [] => ""
         | [x] => if nullish x then "" else to_string x
         | x :: rest =>
             (if nullish x then "" else to_string x) +:+ "," +:+ join rest
         end) xs
  | JObj _ => "[object Object]"
  end.

(** [v[i]] for an array index [i]; reading an index of [undefined] or
    [null] throws. *)
Definition get_index (v : JsVal) (i : nat) : Outcome JsVal :=
  match v with
  | JUndefined =>
      throw (TypeError ("Cannot read properties of undefined (reading '"
                          +:+ pretty i +:+ "')"))
  | JNull =>
      throw (TypeError ("Cannot read properties of null (reading '"
                          +:+ pretty i +:+ "')"))
  | JArr xs => mret (default JUndefined (xs !! i))
  | JObj fields => mret (default JUndefined (assoc (pretty i) fields))
  | JStr s =>
      mret (match String.get i s with
            | Some c => JStr (String c EmptyString)
            | None => JUndefined
            end)
  | JBool _ | JNum _ | JNaN => mret JUndefined
  end.

(** [v.name] for a property name that is not an array index nor
    [length]; reading a property of [undefined] or [null] throws. *)
Definition get_prop (v : JsVal) (name : string) : Outcome JsVal :=
  match v with
  | JUndefined =>
      throw (TypeError ("Cannot read properties of undefined (reading '"
                          +:+ name +:+ "')"))
  | JNull =>
      throw (TypeError ("Cannot read properties of null (reading '"
                          +:+ name +:+ "')"))
  | JObj fields => mret (default JUndefined (assoc name fields))
  | JArr _ | JStr _ | JBool _ | JNum _ | JNaN => mret JUndefined
  end.

(** [v?.name] *)
Definition get_prop_opt (v : JsVal) (name : string) : JsVal :=
  match v with
  | JObj fields => default JUndefined (assoc name fields)
  | _ => JUndefined
  end.

(** [const { name } = await call(...)]: destructuring [undefined] or
    [null] throws; the engine names the destructured expression, here the
    value of a call, [(intermediate value)]. *)
Definition destructure (v : JsVal) (name : string) : Outcome JsVal :=
  match v with
  | JUndefined =>
      throw (TypeError ("Cannot destructure property '" +:+ name
                          +:+ "' of '(intermediate value)' as it is undefined."))
  | JNull =>
      throw (TypeError ("Cannot destructure property '" +:+ name
                          +:+ "' of '(intermediate value)' as it is null."))
  | _ => get_prop v name
  end.

Definition is_space (c : ascii) : bool :=
  let n := nat_of_ascii c in
  (Nat.eqb n 32 || (Nat.leb 9 n && Nat.leb n 13))%bool.

Definition digit_of (c : ascii) : option Z :=
  let n := nat_of_ascii c in
  if (Nat.leb 48 n && Nat.leb n 57)%bool then Some (Z.of_nat n - 48) else None.

Fixpoint skip_spaces (s : string) : string :=
  match s with
  | String c rest => if is_space c then skip_spaces rest else s
  | EmptyString => s
  end.

(** The longest prefix of decimal digits, as a number; [None] when the
    string does not start with a digit. *)
Fixpoint digits (acc : option Z) (s : string) : option Z :=
  match s with
  | String c rest =>
      match digit_of c with
      | Some d => digits (Some (10 * default 0 acc + d)) rest
      | None => acc
      end
  | EmptyString => acc
  end.

(** [parseInt(v, 10)]. The blanks skipped are the ASCII ones and the
    digits are read as an exact integer: this is the engine's result when
    the text has no other white space and the integer is a safe one. *)
Definition parseInt10 (v : JsVal) : JsVal :=
  let s := skip_spaces (to_string v) in
  let '(neg, body) :=
    match s with
    | String "-" rest => (true, rest)
    | String "+" rest => (false, rest)
    | _ => (false, s)
    end in
  match digits None body with
  | Some n => JNum (if neg : bool then - n else n)
  | None => JNaN
  end.

End Js.
Import Js.

(** ** [src/configuration.js] *)

Module Configuration.

(** The [config] package's store. The package keeps a nested object and
    resolves a dotted path in it; here the store is keyed directly by the
    dotted path. A key that is not bound, or bound to [undefined], is an
    undefined property. *)
Definition lookup_property (cfg : gmap string JsVal) (name : string)
  : option JsVal :=
  match cfg !! name with
  | Some JUndefined | None => None
  | Some v => Some v
  end.

(** [config.has(name)]: the property is not [undefined]. *)
Definition has (cfg : gmap string JsVal) (name : string) : bool :=
  bool_decide (is_Some (lookup_property cfg name)).

Definition dquote : string := String (ascii_of_nat 34) EmptyString.

(** [config.get(name)]: throws for an undefined property. *)
Definition get (cfg : gmap string JsVal) (name : string) : Outcome JsVal :=
  match lookup_property cfg name with
  | Some v => mret v
  | None =>
      throw (Error ("Configuration property " +:+ dquote +:+ name
                      +:+ dquote +:+ " is not defined"))
  end.

Definition validateConfigSetting (cfg : gmap string JsVal) (name : string)
  : Outcome unit :=
  if negb (has cfg name) then
    throw (Error (name +:+ " must be set in the configuration"))
  else
    v ← get cfg name;
    if is_null v then
      throw (Error (name +:+ " must be set in the configuration"))
    else mret tt.

Definition validate (cfg : gmap string JsVal) : Outcome unit :=
  validateConfigSetting cfg "db.user";;
  validateConfigSetting cfg "db.password";;
  validateConfigSetting cfg "db.host";;
  validateConfigSetting cfg "db.port";;
  validateConfigSetting cfg "db.database";;
  validateConfigSetting cfg "listen_port";;
  validateConfigSetting cfg "permissions.uri";;
  validateConfigSetting cfg "permissions.public_group";;
  validateConfigSetting cfg "apps.favorites_group_index";;
  validateConfigSetting cfg "apps.url".

(** A setting is missing when its key is absent (or [undefined]) or bound
    to [null]. *)
Definition missing (cfg : gmap string JsVal) (name : string) : bool :=
  match cfg !! name with
  | None | Some JUndefined | Some JNull => true
  | Some _ => false
  end.

(** The error of [validateConfigSetting]. *)
Definition must_be_set (name : string) : JsError :=
  Error (name +:+ " must be set in the configuration").

(** The names [validate] checks, in its order. *)
Definition validated_settings : list string :=
  [ "db.user"; "db.password"; "db.host"; "db.port"; "db.database";
    "listen_port"; "permissions.uri"; "permissions.public_group";
    "apps.favorites_group_index"; "apps.url" ].

(** The settings of the feed sources, read by [index.js] at startup. *)
Definition feed_source_settings : list string :=
  [ "website.url"; "website.feeds.news"; "website.feeds.events";
    "videos.url" ].

(** The settings the exports are read from, in the order of the reads. *)
Definition exported_settings : list string :=
  [ "db.user"; "db.password"; "db.host"; "db.port"; "db.database";
    "logging.level"; "logging.label"; "listen_port"; "permissions.uri";
    "permissions.public_group"; "website.url"; "website.feeds.news";
    "website.feeds.events"; "videos.url"; "app-exposer.url";
    "app-exposer.user"; "apps.favorites_group_index"; "apps.url";
    "metadata.url"; "metadata.featured_apps_attr";
    "metadata.featured_apps_value" ].

(** The module's exports. *)
Record Exports : Type := mkExports {
  dbUser : JsVal;
  dbPass : JsVal;
  dbHost : JsVal;
  dbPort : JsVal;
  dbDatabase : JsVal;
  logLevel : JsVal;
  logLabel : JsVal;
  listenPort : JsVal;
  permissionsURL : JsVal;
  publicGroup : JsVal;
  websiteURL : JsVal;
  newsFeedPath : JsVal;
  eventsFeedPath : JsVal;
  videosURL : JsVal;
  appExposerURL : JsVal;
  appExposerUser : JsVal;
  favoritesGroupIndex : JsVal;
  appsURL : JsVal;
  metadataURL : JsVal;
  featuredAppsAttr : JsVal;
  featuredAppsValue : JsVal
}.

(** Evaluating the module: [validate()] and then every export, top to
    bottom. The first exception ends the evaluation, and with it the
    process that imports the module. *)
Definition load (cfg : gmap string JsVal) : Outcome Exports :=
  validate cfg;;
  dbUser ← get cfg "db.user";
  dbPass ← get cfg "db.password";
  dbHost ← get cfg "db.host";
  dbPort ← parseInt10 <$> get cfg "db.port";
  dbDatabase ← get cfg "db.database";
  logLevel ← (fun v => js_or v (JStr "info")) <$> get cfg "logging.level";
  logLabel ← (fun v => js_or v (JStr "dashboard-aggregator"))
               <$> get cfg "logging.label";
  listenPort ← parseInt10 <$> get cfg "listen_port";
  permissionsURL ← get cfg "permissions.uri";
  publicGroup ← get cfg "permissions.public_group";
  websiteURL ← get cfg "website.url";
  newsFeedPath ← get cfg "website.feeds.news";
  eventsFeedPath ← get cfg "website.feeds.events";
  videosURL ← get cfg "videos.url";
  appExposerURL ← (fun v => js_or v (JStr "http://app-exposer"))
                    <$> get cfg "app-exposer.url";
  appExposerUser ← get cfg "app-exposer.user";
  favoritesGroupIndex ← parseInt10 <$> get cfg "apps.favorites_group_index";
  appsURL ← get cfg "apps.url";
  metadataURL ← get cfg "metadata.url";
  featuredAppsAttr ← get cfg "metadata.featured_apps_attr";
  featuredAppsValue ← get cfg "metadata.featured_apps_value";
  mret (mkExports dbUser dbPass dbHost dbPort dbDatabase logLevel logLabel
          listenPort permissionsURL publicGroup websiteURL newsFeedPath
          eventsFeedPath videosURL appExposerURL appExposerUser
          favoritesGroupIndex appsURL metadataURL featuredAppsAttr
          featuredAppsValue).

End Configuration.

(** ** The feed module, [./feed]

    [index.js] imports [WebsiteFeed], [VideoFeed],
    [DashboardInstantLaunchesFeed] and [feedURL] from a module whose
    source is not part of the files studied here. The feed object below
    follows the specification of the feed cache and of the refresh
    scheduler. *)

Module Feed.

(** Modelled from the spec: the [kind] of an item, set by the feed that
    owns it; the feed classes that set it are in the missing module. *)
Inductive Kind : Type := News | Event | Video | InstantLaunch.

(** Modelled from the spec: the normalized feed entry of the data model;
    the class that builds it is in the missing [./feed] module. An
    absent [publishedAt] is [None]. *)
Record Item : Type := mkItem {
  title : string;
  link : string;
  publishedAt : option Z;
  summary : string;
  kind : Kind
}.

(** Modelled from the spec: the ordering on [publishedAt] used for the
    descending order of a snapshot; absent values sort last. *)
Definition newer_eq (x y : Item) : bool :=
  match publishedAt x, publishedAt y with
  | Some a, Some b => b <=? a
  | Some _, None => true
  | None, None => true
  | None, Some _ => false
  end.

(** Modelled from the spec: a snapshot is in descending [publishedAt]
    order when every item is at least as recent as all the items after
    it. *)
Fixpoint sorted_desc (l : list Item) : bool :=
  match l with
  | [] => true
  | x :: rest => forallb (newer_eq x) rest && sorted_desc rest
  end.

(** Modelled from the spec: [r] holds the most recent items of the
    snapshot [l], most recent first: it is in descending order, it is the
    beginning of [l], and each of its items is at least as recent as each
    item of [l] left out. *)
Definition most_recent (r l : list Item) : Prop :=
  sorted_desc r = true
  /\ exists older,
      l = r ++ older
      /\ forall x y, x ∈ r -> y ∈ older -> newer_eq x y = true.

(** Modelled from the spec: the states of a RefreshSchedule, with the
    time of the next scheduled refresh while running; [NotScheduled] is a
    feed to which no scheduler was attached. *)
Inductive Schedule : Type :=
| NotScheduled
| Stopped
| Running (next : Z).

(** Modelled from the spec: a feed instance of the missing [./feed]
    module, that is a FeedSource, the FeedCache (current snapshot and time
    of the last successful refresh) and the RefreshSchedule bound to it.
    [fetches] counts the invocations of the Fetcher and [inflight] tells
    whether a refresh is waiting for its Fetcher. *)
Record Feed : Type := mkFeed {
  source : JsVal;
  interval : Z;
  items : list Item;
  lastRefreshedAt : option Z;
  fetches : nat;
  inflight : bool;
  schedule : Schedule
}.

(** Modelled from the spec: construction performs no I/O; the cache starts
    empty and no scheduler is attached. *)
Definition new (src : JsVal) (period : Z) : Feed :=
  mkFeed src period [] None 0 false NotScheduled.

(** Modelled from the spec: [getItems()] of the missing feed class returns
    the current snapshot; it does not fetch, does not wait and has no
    failure case. The feed is returned as it was. *)
Definition getItems (f : Feed) : list Item * Feed := (items f, f).

(** Modelled from the spec: the first half of [refresh()], up to the
    suspension on the network: the Fetcher is invoked, unless a refresh of
    this feed is already in flight (refreshes of one feed are serialized,
    the new one is skipped). *)
Definition refresh_begin (f : Feed) : Feed :=
  if inflight f then f
  else mkFeed (source f) (interval f) (items f) (lastRefreshedAt f)
              (S (fetches f)) true (schedule f).

(** Modelled from the spec: the second half of [refresh()], when the
    Fetcher has settled with [fetched] at time [now]: on success the
    snapshot is replaced as a whole and the time recorded, on failure the
    snapshot stays and the error goes to the caller. *)
Definition refresh_end (fetched : Outcome (list Item)) (now : Z) (f : Feed)
  : Outcome unit * Feed :=
  if negb (inflight f) then (Returned tt, f)
  else
    match fetched with
    | Returned l =>
        (Returned tt,
         mkFeed (source f) (interval f) l (Some now) (fetches f) false
                (schedule f))
    | Thrown e =>
        (Thrown e,
         mkFeed (source f) (interval f) (items f) (lastRefreshedAt f)
                (fetches f) false (schedule f))
    end.

(** Modelled from the spec: [refresh()] with nothing interleaved; a
    refresh asked for while another one is in flight is skipped. *)
Definition refresh (fetched : Outcome (list Item)) (now : Z) (f : Feed)
  : Outcome unit * Feed :=
  if inflight f then (Returned tt, f)
  else refresh_end fetched now (refresh_begin f).

(** Modelled from the spec: the call [pullItems()] of the missing feed
    class starts a refresh and returns a promise at the suspension on the
    network; the fetch is then in flight. The callers in [index.js] drop
    that promise. *)
Definition pullItems (f : Feed) : Feed := refresh_begin f.


(** Modelled from the spec: the RefreshSchedule of the missing feed class
    is the only field a scheduler operation writes. *)
Definition set_schedule (s : Schedule) (f : Feed) : Feed :=
  mkFeed (source f) (interval f) (items f) (lastRefreshedAt f) (fetches f)
         (inflight f) s.

(** Modelled from the spec: [scheduleRefresh()] attaches a scheduler in its
    initial state. *)
Definition scheduleRefresh (f : Feed) : Feed := set_schedule Stopped f.

(** Modelled from the spec: [start()] at time [now]: the first refresh is
    due one interval later. Starting needs an attached, stopped
    scheduler. *)
Definition start (now : Z) (f : Feed) : Feed :=
  match schedule f with
  | Stopped => set_schedule (Running (now + interval f)) f
  | _ => f
  end.

(** Modelled from the spec: [stop()]. *)
Definition stop (f : Feed) : Feed :=
  match schedule f with
  | Running _ => set_schedule Stopped f
  | _ => f
  end.

(** Modelled from the spec: the timer of the feed looked at at time
    [now]: when a refresh is due it runs, whatever its outcome (which is
    only logged) the next one is due one interval after the nominal time
    of this one. *)
Definition tick (fetched : Outcome (list Item)) (now : Z) (f : Feed)
  : Feed :=
  match schedule f with
  | Running next =>
      if next <=? now then
        set_schedule (Running (next + interval f)) (refresh fetched now f).2
      else f
  | _ => f
  end.

(** Modelled from the spec: what can happen to one feed of the missing
    module while the process runs, each an uninterrupted step of the event
    loop: a reader calls [getItems()], a refresh starts, the Fetcher of the
    refresh in flight settles. *)
Inductive FeedEvent : Type :=
| Read
| RefreshBegins
| RefreshSettles (fetched : Outcome (list Item)) (now : Z).

(** Modelled from the spec: a run of the missing feed class over such
    steps; the snapshots its readers get, in order, and the feed at the
    end. *)
Fixpoint run (evs : list FeedEvent) (f : Feed) : list (list Item) * Feed :=
  match evs with
  | [] => ([], f)
  | Read :: rest =>
      let '(snapshot, f') := getItems f in
      let '(seen, f'') := run rest f' in
      (snapshot :: seen, f'')
  | RefreshBegins :: rest => run rest (refresh_begin f)
  | RefreshSettles fetched now :: rest =>
      run rest (refresh_end fetched now f).2
  end.

(** Modelled from the spec: the outcomes of the refreshes of the missing
    feed class that settled in a run, oldest first. *)
Fixpoint settled (evs : list FeedEvent) (f : Feed)
  : list (Outcome (list Item)) :=
  match evs with
  | [] => []
  | Read :: rest => settled rest f
  | RefreshBegins :: rest => settled rest (refresh_begin f)
  | RefreshSettles fetched now :: rest =>
      ((if inflight f then [fetched] else [])
        ++ settled rest (refresh_end fetched now f).2)%list
  end.

(** Modelled from the spec: the last successfully fetched list among the
    outcomes of the missing feed class's refreshes, [dflt] when there is
    none. *)
Definition last_success (dflt : list Item)
  (outcomes : list (Outcome (list Item))) : list Item :=
  foldl (fun acc o => match o with Returned l => l | Thrown _ => acc end)
        dflt outcomes.

End Feed.

(** ** [src/index.js] *)

Module Index.
Import Feed.

(** *** Effects of a handler

    What a handler leaves behind besides its response: the records given
    to the logger and the start and end of tracing spans, in the order of
    the calls that produce them. *)
Inductive Event : Type :=
| LogInfo (msg : string)
| LogError (e : JsError)
| SpanStart (name : string)
| SpanEnd.

(** A computation that may throw and appends to the event list. A promise
    is represented by the outcome it settles with. *)
Definition M (A : Type) : Type := list Event -> Outcome A * list Event.

#[global] Instance M_ret : MRet M := fun A a log => (Returned a, log).
#[global] Instance M_bind : MBind M := fun A B f m log =>
  match m log with
  | (Returned a, log') => f a log'
  | (Thrown e, log') => (Thrown e, log')
  end.

Definition emit (ev : Event) : M unit := fun log => (Returned tt, (log ++ [ev])%list).

(** [await p], and the evaluation of an expression that may throw. *)
Definition await {A : Type} (p : Outcome A) : M A := fun log => (p, log).

(** Calling an async function without awaiting it: the promise it
    returns, given by the outcome it settles with, the events of the
    function being recorded at the call. This follows the code on the
    runs in which the promise is fulfilled, or is rejected only once the
    caller awaits it. When it is rejected while the caller still waits for
    something else, nobody handles the rejection and the events interleave
    otherwise; those runs depend on timing and are outside this model. *)
Definition spawn {A : Type} (m : M A) : M (Outcome A) := fun log =>
  let '(r, log') := m log in (Returned r, log').

(** [try { body } catch (e) { handler }] *)
Definition try_catch {A : Type} (body : M A) (handler : JsError -> M A)
  : M A := fun log =>
  match body log with
  | (Returned a, log') => (Returned a, log')
  | (Thrown e, log') => handler e log'
  end.

(** [try { body } finally { fin }] *)
Definition try_finally {A : Type} (body : M A) (fin : M unit) : M A :=
  fun log =>
  let '(r, log') := body log in
  match fin log' with
  | (Returned _, log'') => (r, log'')
  | (Thrown e, log'') => (Thrown e, log'')
  end.

(** *** The feeds as the handlers see them *)

(** The promises returned by [getItems()] of the four feed objects when a
    request is served. *)
Record FeedReads : Type := mkReads {
  news_getItems : Outcome (list Item);
  events_getItems : Outcome (list Item);
  videos_getItems : Outcome (list Item);
  il_getItems : Outcome (list Item)
}.

(** The object built by [createFeeds]. *)
Record Feeds : Type := mkFeeds {
  news : list Item;
  events : list Item;
  videos : list Item
}.

(** [l.slice(0, limit)] for a number [limit]: a negative end counts from
    the end of the array. *)
Definition slice0 {A : Type} (l : list A) (limit : Z) : list A :=
  let len := Z.of_nat (length l) in
  let final := if limit <? 0 then Z.max (len + limit) 0 else Z.min limit len in
  take (Z.to_nat final) l.

Definition createFeeds (r : FeedReads) (limit : Z) : M Feeds :=
  emit (SpanStart "createFeeds");;
  try_finally
    (newsItems ← await (news_getItems r);
     eventsItems ← await (events_getItems r);
     videosItems ← await (videos_getItems r);
     mret (mkFeeds (slice0 newsItems limit)
                   (slice0 eventsItems limit)
                   (slice0 videosItems limit)))
    (emit SpanEnd).

(** *** Responses *)

(** The JSON object of the per-user dashboard. *)
Record Dashboard : Type := mkDashboard {
  apps_recentlyAdded : JsVal;
  apps_public : JsVal;
  apps_recentlyUsed : JsVal;
  apps_popularFeatured : JsVal;
  analyses_recent : JsVal;
  analyses_running : JsVal;
  instantLaunches : list Item;
  feeds : Feeds
}.

Inductive Body : Type :=
| BodyText (text : string)
| BodyReason (reason : string)
| BodyDashboard (d : Dashboard)
| BodyHome (popularFeatured : JsVal) (fs : Feeds)
| BodyFeeds (fs : Feeds).

Record Response : Type := mkResponse { status : Z; body : Body }.

(** [res.status(code).send(b)] and [res.status(code).json(b)]; the value
    of a handler is the response it has sent. A handler that throws
    instead is an async function whose promise is rejected with nobody to
    handle it. *)
Definition respond (code : Z) (b : Body) : M Response :=
  mret (mkResponse code b).

Record Request : Type := mkRequest {
  req_username : string;
  req_query : JsVal
}.

(** *** The health check *)

(** [query] is what the promise of [db.query(...)] settles with and
    [logger_error_value] what the call [logger.error(e)] evaluates to (the
    logging module is not among the files studied). *)
Definition healthz (query : Outcome JsVal) (logger_error_value : JsVal)
  : M Response :=
  result ← match query with
            | Returned v => mret v
            | Thrown e => emit (LogError e);; mret logger_error_value
            end;
  rows ← await (destructure result "rows");
  if negb (truthy rows) then
    respond 500 (BodyText "no rows returned from database")
  else
    row ← await (get_index rows 0);
    version ← await (get_prop row "version");
    respond 200 (BodyText ("version " +:+ to_string version)).

(** *** The data sources of the dashboard

    The functions imported from [./util], [./constants], [./clients/...],
    [./apps/...] and [./analyses/...], none of which is among the files
    studied. Each asynchronous one is given by the outcome of the promise
    it returns; the database client they receive is left out. *)
Record Collaborators : Type := mkCollaborators {
  validateInterval : JsVal -> Outcome JsVal;
  validateLimit : JsVal -> Outcome (option Z);
  DEFAULT_START_DATE_INTERVAL : JsVal;
  FEATURED_APPS_AVUS : JsVal;
  recentAnalysesData : string -> Z -> Outcome JsVal;
  runningAnalysesData : string -> Z -> Outcome JsVal;
  getPublicAppIDs : Outcome JsVal;
  recentlyAddedData : string -> Z -> JsVal -> Outcome JsVal;
  publicAppsData : string -> Z -> JsVal -> Outcome JsVal;
  getRecentlyUsedApps : string -> Z -> JsVal -> JsVal -> Outcome JsVal;
  getFilteredTargetIds : list string -> JsVal -> JsVal -> string
                         -> Outcome JsVal;
  popularFeaturedData : string -> Z -> JsVal -> JsVal -> Outcome JsVal
}.

(** [validateLimit(req?.query?.limit) ?? 10] *)
Definition request_limit (c : Collaborators) (req : Request) : M Z :=
  validated ← await (validateLimit c (get_prop_opt (req_query req) "limit"));
  mret (default 10 validated).

(** [(await validateInterval(req?.query["start-date-interval"])) ??
    constants.DEFAULT_START_DATE_INTERVAL] *)
Definition request_interval (c : Collaborators) (req : Request) : M JsVal :=
  raw ← await (get_prop (req_query req) "start-date-interval");
  validated ← await (validateInterval c raw);
  mret (js_coalesce validated (DEFAULT_START_DATE_INTERVAL c)).

(** [app.get("/users/:username", ...)]. The handler creates its promises
    first and awaits them later, so what it does when one of them is
    rejected depends on when the rejection arrives: see [spawn]. The
    definition follows the code when every promise is fulfilled and when
    the exception comes before the first promise is created, and the
    properties of this handler are about those runs. *)
Definition users_handler (c : Collaborators) (r : FeedReads) (req : Request)
  : M Response :=
  try_catch
    (let username := req_username req in
     startDateInterval ← request_interval c req;
     limit ← request_limit c req;
     let instantLaunches := il_getItems r in
     feeds ← spawn (createFeeds r limit);
     let recentAnalyses := recentAnalysesData c username limit in
     let runningAnalyses := runningAnalysesData c username limit in
     let publicAppIDs := getPublicAppIDs c in
     ids ← await publicAppIDs;
     let recentlyAdded := recentlyAddedData c username limit ids in
     ids ← await publicAppIDs;
     let publicApps := publicAppsData c username limit ids in
     ids ← await publicAppIDs;
     let recentlyUsed :=
       getRecentlyUsedApps c username limit startDateInterval ids in
     ids ← await publicAppIDs;
     let featuredAppIds :=
       getFilteredTargetIds c ["app"] ids (FEATURED_APPS_AVUS c) username in
     featured ← await featuredAppIds;
     let popularFeatured :=
       popularFeaturedData c username limit featured startDateInterval in
     recentlyAdded ← await recentlyAdded;
     publicApps ← await publicApps;
     recentlyUsed ← await recentlyUsed;
     popularFeatured ← await popularFeatured;
     recent ← await recentAnalyses;
     running ← await runningAnalyses;
     instantLaunches ← await instantLaunches;
     feeds ← await feeds;
     respond 200
       (BodyDashboard
          (mkDashboard recentlyAdded publicApps recentlyUsed popularFeatured
             (get_prop_opt recent "analyses")
             (get_prop_opt running "analyses")
             instantLaunches feeds)))
    (fun e =>
       emit (LogError e);;
       respond 500
         (BodyReason ("error running query: " +:+ error_to_string e))).

(** [app.get("/", ...)] *)
Definition home_handler (c : Collaborators) (r : FeedReads) (req : Request)
  : M Response :=
  try_catch
    (limit ← request_limit c req;
     let username := "anonymous" in
     startDateInterval ← request_interval c req;
     feeds ← createFeeds r limit;
     let publicAppIDs := getPublicAppIDs c in
     ids ← await publicAppIDs;
     let featuredAppIds :=
       getFilteredTargetIds c ["app"] ids (FEATURED_APPS_AVUS c) username in
     featured ← await featuredAppIds;
     popularFeatured ←
       await (popularFeaturedData c username limit featured
                startDateInterval);
     respond 200 (BodyHome popularFeatured feeds))
    (fun e =>
       emit (LogError e);;
       respond 500 (BodyReason ("error running query: " +:+ err_message e))).

(** [app.get("/feeds", ...)] *)
Definition feeds_handler (c : Collaborators) (r : FeedReads) (req : Request)
  : M Response :=
  try_catch
    (limit ← request_limit c req;
     feeds ← createFeeds r limit;
     respond 200 (BodyFeeds feeds))
    (fun e =>
       emit (LogError e);;
       respond 500 (BodyReason ("error getting feeds: " +:+ err_message e))).

(** *** Process start *)

Inductive FeedName : Type := NewsFeed | EventsFeed | VideosFeed | IlFeed.

#[global] Instance FeedName_eq_dec : EqDecision FeedName.
Proof. solve_decision. Defined.

(** A call made on a feed object by the top level of [index.js]. *)
Inductive Call : Type :=
| New (f : FeedName) (src : JsVal)
| PullItems (f : FeedName)
| ScheduleRefresh (f : FeedName)
| Start (f : FeedName).

(** What the top level takes from outside: [feedURL] of the missing feed
    module, the refresh period of each feed class, and what a fetch of a
    feed's upstream at a given time yields. *)
Record Env : Type := mkEnv {
  feedURL : JsVal -> JsVal -> JsVal;
  refresh_interval : FeedName -> Z;
  upstream : FeedName -> Z -> Outcome (list Item)
}.

(** The calls of the synchronous run of the module, lines 52 to 68; the
    two calls on [ilFeed] of lines 69 and 70 are comments in the source
    and are no calls. *)
Definition startup_sync (env : Env) (config : Configuration.Exports)
  : list Call :=
  [ New NewsFeed (feedURL env (Configuration.websiteURL config)
                              (Configuration.newsFeedPath config));
    PullItems NewsFeed;
    ScheduleRefresh NewsFeed;
    New EventsFeed (feedURL env (Configuration.websiteURL config)
                                (Configuration.eventsFeedPath config));
    PullItems EventsFeed;
    ScheduleRefresh EventsFeed;
    New VideosFeed (Configuration.videosURL config);
    PullItems VideosFeed;
    ScheduleRefresh VideosFeed;
    New IlFeed (Configuration.appExposerURL config) ].

(** The continuations [(f) => f.start()] given to [then]: they run when
    the synchronous run is over, in the order of their registration. *)
Definition startup_deferred : list Call :=
  [ Start NewsFeed; Start EventsFeed; Start VideosFeed ].

Definition startup_calls (env : Env) (config : Configuration.Exports)
  : list Call :=
  startup_sync env config ++ startup_deferred.

(** The module-level feed variables; [None] before the [const] is
    initialised. *)
Definition World : Type := FeedName -> option Feed.

Definition no_feeds : World := fun _ => None.

Definition set_feed (f : FeedName) (v : option Feed) (w : World) : World :=
  fun g => if decide (g = f) then v else w g.

Definition on_feed (f : FeedName) (op : Feed -> Feed) (w : World) : World :=
  set_feed f (op <$> w f) w.

(** The effect of one call made at time [now]. [pullItems()] is called
    and not awaited: the call starts the fetch and the top level goes
    on. *)
Definition exec_call (env : Env) (now : Z) (w : World) (c : Call) : World :=
  match c with
  | New f src => set_feed f (Some (Feed.new src (refresh_interval env f))) w
  | PullItems f => on_feed f Feed.pullItems w
  | ScheduleRefresh f => on_feed f Feed.scheduleRefresh w
  | Start f => on_feed f (Feed.start now) w
  end.

(** The feeds when the module has been evaluated at time [now], its
    continuations have run and the server listens; no fetch has settled
    yet. *)
Definition startup (env : Env) (config : Configuration.Exports) (now : Z)
  : World :=
  foldl (exec_call env now) no_feeds (startup_calls env config).


(** The timers that touch the feeds after startup: the timer of feed [f]
    looked at at time [now]. *)
Inductive Timer : Type := TimerAt (f : FeedName) (now : Z).

Definition fire (env : Env) (w : World) (t : Timer) : World :=
  match t with
  | TimerAt f now => on_feed f (Feed.tick (upstream env f now) now) w
  end.

Definition run_timers (env : Env) (ts : list Timer) (w : World) : World :=
  foldl (fire env) w ts.

(** [feed.getItems()] on a module-level variable. *)
Definition read_feed (w : World) (f : FeedName) : Outcome (list Item) :=
  match w f with
  | Some feed => Returned (Feed.getItems feed).1
  | None =>
      Thrown (TypeError
                "Cannot read properties of undefined (reading 'getItems')")
  end.

Definition reads_of (w : World) : FeedReads :=
  mkReads (read_feed w NewsFeed) (read_feed w EventsFeed)
          (read_feed w VideosFeed) (read_feed w IlFeed).

(** The order of evaluation at process start: the configuration module
    first, and [index.js] only when that has not thrown. [Thrown] says that
    the process stopped in [configuration.js]; [Returned] says no more than
    that [configuration.js] was evaluated, and gives the feeds [index.js]
    then sets up if [feedURL] and the constructors of the missing feed
    module return. *)
Definition main (env : Env) (cfg : gmap string JsVal) (now : Z)
  : Outcome World :=
  config ← Configuration.load cfg;
  mret (startup env config now).

End Index.

(** * Sample data

    Concrete configurations, feeds, collaborators and requests on which
    the properties below are exercised. *)

Import Feed Index.

(** A complete configuration, with a database on port 5432. *)
Definition complete_cfg : gmap string JsVal :=
  list_to_map
    [ ("db.user", JStr "de"); ("db.password", JStr "notprod");
      ("db.host", JStr "db"); ("db.port", JNum 5432);
      ("db.database", JStr "de"); ("listen_port", JStr "3000");
      ("permissions.uri", JStr "http://permissions");
      ("permissions.public_group", JStr "public");
      ("apps.favorites_group_index", JNum 0);
      ("apps.url", JStr "http://apps");
      ("logging.level", JStr "debug"); ("logging.label", JNull);
      ("website.url", JStr "https://cyverse.org");
      ("website.feeds.news", JStr "/rss/news");
      ("website.feeds.events", JStr "/rss/events");
      ("videos.url", JStr "https://videos.example/feed");
      ("app-exposer.url", JNull); ("app-exposer.user", JStr "de");
      ("metadata.url", JStr "http://metadata");
      ("metadata.featured_apps_attr", JStr "featured");
      ("metadata.featured_apps_value", JStr "true") ].


(** An environment in which every upstream is down. *)
Definition offline_env : Env :=
  mkEnv (fun base path => JStr (to_string base +:+ to_string path))
        (fun _ => 3600)
        (fun _ _ => Thrown (Error "connect ETIMEDOUT")).

Definition item_at (t : Z) (k : Kind) : Item :=
  mkItem ("entry " +:+ pretty t) "https://cyverse.org/entry" (Some t) "" k.

(** A news feed whose cache holds two entries, none in flight. *)
Definition warm_feed : Feed :=
  mkFeed (JStr "https://cyverse.org/rss/news") 3600
         [item_at 20 News; item_at 10 News] (Some 100) 1 false (Running 3700).

(** What the [pg] client resolves the version query with when the table
    has no row. *)
Definition no_rows_result : JsVal :=
  JObj [ ("command", JStr "SELECT"); ("rowCount", JNum 0);
         ("rows", JArr []) ].

(** What it resolves with when the last applied version is [v]. *)
Definition one_row_result (v : JsVal) : JsVal :=
  JObj [ ("command", JStr "SELECT"); ("rowCount", JNum 1);
         ("rows", JArr [ JObj [ ("version", v) ] ]) ].

(** Ten news entries, most recent first. *)
Definition ten_news : list Item :=
  (fun t => item_at t News) <$> [100; 90; 80; 70; 60; 50; 40; 30; 20; 10].

(** Collaborators that all answer: the limit is the number given in the
    query, if any, and every listing is empty. *)
Definition steady_collaborators : Collaborators :=
  mkCollaborators
    (fun v => Returned v)
    (fun v => Returned (match v with JNum n => Some n | _ => None end))
    (JNum 6)
    (JArr [])
    (fun _ _ => Returned (JObj [("analyses", JArr [])]))
    (fun _ _ => Returned (JObj [("analyses", JArr [])]))
    (Returned (JArr []))
    (fun _ _ _ => Returned (JArr []))
    (fun _ _ _ => Returned (JArr []))
    (fun _ _ _ _ => Returned (JArr []))
    (fun _ _ _ _ => Returned (JArr []))
    (fun _ _ _ _ => Returned (JArr [])).

(** Collaborators whose [validateInterval] refuses every interval. *)
Definition refusing_collaborators : Collaborators :=
  mkCollaborators
    (fun _ => Thrown (Error "invalid interval"))
    (fun _ => Returned None)
    (JNum 6)
    (JArr [])
    (fun _ _ => Returned JNull)
    (fun _ _ => Returned JNull)
    (Returned (JArr []))
    (fun _ _ _ => Returned (JArr []))
    (fun _ _ _ => Returned (JArr []))
    (fun _ _ _ _ => Returned (JArr []))
    (fun _ _ _ _ => Returned (JArr []))
    (fun _ _ _ _ => Returned (JArr [])).

(** News and events are read, the read of the videos throws. *)
Definition videos_read_fails : FeedReads :=
  mkReads (Returned [item_at 20 News; item_at 10 News])
          (Returned [item_at 5 Feed.Event])
          (Thrown (Error "videos unavailable"))
          (Returned []).

Definition plain_request : Request := mkRequest "ipcdev" (JObj []).

(** An instant-launches feed whose cache holds three launches. *)
Definition launches_feed : Feed :=
  mkFeed (JStr "http://app-exposer") 3600
         [ item_at 3 InstantLaunch; item_at 2 InstantLaunch;
           item_at 1 InstantLaunch ]
         (Some 100) 1 false NotScheduled.

Definition serving_world : World := fun f =>
  Some (match f with IlFeed => launches_feed | _ => warm_feed end).

Definition limit_one_request : Request :=
  mkRequest "ipcdev" (JObj [("limit", JNum 1)]).

(** The exports of the module for [complete_cfg]. *)
Definition loaded_config : Configuration.Exports :=
  Configuration.mkExports (JStr "de") (JStr "notprod") (JStr "db")
    (JNum 5432) (JStr "de") (JStr "debug") (JStr "dashboard-aggregator")
    (JNum 3000) (JStr "http://permissions") (JStr "public")
    (JStr "https://cyverse.org") (JStr "/rss/news") (JStr "/rss/events")
    (JStr "https://videos.example/feed") (JStr "http://app-exposer")
    (JStr "de") (JNum 0) (JStr "http://apps") (JStr "http://metadata")
    (JStr "featured") (JStr "true").

(** * Properties *)

(** ** Exceptions *)

Lemma throws_bind_l {A B : Type} (m : Outcome A) (f : A -> Outcome B) :
  throws m -> throws (m ≫= f).
Proof. intros [e ->]. by exists e. Qed.

Lemma throws_bind_r {A B : Type} (m : Outcome A) (f : A -> Outcome B) :
  (forall a, throws (f a)) -> throws (m ≫= f).
Proof. intros Hf. destruct m as [a|e]; [apply Hf | by exists e]. Qed.

Lemma throws_fmap {A B : Type} (m : Outcome A) (f : A -> B) :
  throws m -> throws (f <$> m).
Proof. intros [e ->]. by exists e. Qed.

(** ** Configuration *)

Section ConfigurationFacts.
Import Configuration.

Variable cfg : gmap string JsVal.

Lemma validateConfigSetting_spec (name : string) :
  validateConfigSetting cfg name =
  if missing cfg name then Thrown (must_be_set name) else Returned tt.
Proof.
  unfold validateConfigSetting, has, get, lookup_property, missing.
  destruct (cfg !! name) as [[]|]; reflexivity.
Qed.

(** [validate] throws for the first missing name of its list. *)
Lemma validate_spec :
  validate cfg =
  match List.find (missing cfg) validated_settings with
  | Some name => Thrown (must_be_set name)
  | None => Returned tt
  end.
Proof.
  unfold validate. rewrite !validateConfigSetting_spec.
  unfold validated_settings. cbn [List.find].
  repeat (match goal with
          | |- context [missing cfg ?n] => destruct (missing cfg n)
          end; try reflexivity).
Qed.

Lemma get_undefined (name : string) :
  lookup_property cfg name = None -> throws (get cfg name).
Proof. intros H. unfold get. rewrite H. by eexists. Qed.

Lemma get_defined (name : string) (v : JsVal) :
  lookup_property cfg name = Some v -> get cfg name = Returned v.
Proof. intros H. unfold get. by rewrite H. Qed.

Lemma load_validate_throws (e : JsError) :
  validate cfg = Thrown e -> load cfg = Thrown e.
Proof. intros H. unfold load. rewrite H. reflexivity. Qed.

(** Loading throws when one of the settings it reads is undefined. *)
Lemma load_undefined_setting (name : string) :
  name ∈ exported_settings -> lookup_property cfg name = None ->
  throws (load cfg).
Proof.
  intros Hin Habs. apply get_undefined in Habs.
  unfold exported_settings in Hin.
  repeat (apply elem_of_cons in Hin as [-> | Hin]);
    [ .. | by apply elem_of_nil in Hin ];
    unfold load;
    repeat first
      [ apply throws_bind_l; first [exact Habs | apply throws_fmap; exact Habs]
      | apply throws_bind_r; intros ? ].
Qed.

(** Loading returns when no setting of the list of [validate] is missing
    and every setting read is defined. *)
Lemma load_returns :
  (forall name, name ∈ validated_settings -> missing cfg name = false) ->
  (forall name, name ∈ exported_settings ->
                is_Some (lookup_property cfg name)) ->
  exists config, load cfg = Returned config.
Proof.
  intros Hval Hdef. unfold load. rewrite validate_spec.
  destruct (List.find (missing cfg) validated_settings) as [first|] eqn:Hfind.
  - apply List.find_some in Hfind as [Hin Hm].
    rewrite Hval in Hm; [discriminate | by apply list_elem_of_In].
  - repeat match goal with
           | |- context [get cfg ?k] =>
               let H := fresh in
               destruct (Hdef k) as [? H];
               [ unfold exported_settings; repeat constructor
               | rewrite (get_defined _ _ H) ]
           end.
    by eexists.
Qed.

Lemma load_returns_inv (config : Exports) :
  load cfg = Returned config ->
  (forall name, name ∈ validated_settings -> missing cfg name = false)
  /\ (forall name, name ∈ exported_settings ->
                   is_Some (lookup_property cfg name)).
Proof.
  intros Hload. split; intros name Hin.
  - pose proof validate_spec as Hv.
    destruct (List.find (missing cfg) validated_settings) as [first|] eqn:Hfind.
    + rewrite (load_validate_throws _ Hv) in Hload. discriminate.
    + apply list_elem_of_In in Hin. exact (List.find_none _ _ Hfind _ Hin).
  - destruct (lookup_property cfg name) eqn:Hl; [by eexists|].
    destruct (load_undefined_setting name Hin Hl) as [e He]. congruence.
Qed.

End ConfigurationFacts.

(** Binding a feed-source setting to [null] in a configuration that loads
    gives a configuration that loads. *)
Lemma null_feed_source_still_loads (cfg : gmap string JsVal) (name : string)
  (config : Configuration.Exports) :
  name ∈ Configuration.feed_source_settings ->
  Configuration.load cfg = Returned config ->
  exists config', Configuration.load (<[name := JNull]> cfg) = Returned config'.
Proof.
  intros Hin Hload. apply load_returns_inv in Hload as [Hval Hdef].
  apply load_returns.
  - intros n Hn. rewrite <- (Hval n Hn). unfold Configuration.missing.
    rewrite lookup_insert_ne; [done|]. intros ->.
    unfold Configuration.feed_source_settings in Hin.
    unfold Configuration.validated_settings in Hn.
    repeat (apply elem_of_cons in Hin as [-> | Hin]);
      try (by apply elem_of_nil in Hin);
      repeat (apply elem_of_cons in Hn as [Hn | Hn]; [discriminate Hn|]);
      by apply elem_of_nil in Hn.
  - intros n Hn. unfold Configuration.lookup_property.
    destruct (decide (name = n)) as [->|Hne].
    + rewrite lookup_insert_eq. by eexists.
    + rewrite lookup_insert_ne by done. by apply Hdef.
Qed.

(** C7 (amended). The settings of the list of [validate] are checked when
    the configuration module is evaluated at process start: if one of them
    is absent or null, loading throws the error that names the first such
    setting and the process does not start. A feed-source setting is not
    in that list: when it is absent, loading throws, because [config.get]
    does, and the process does not start. *)
Theorem C7_missing_setting_stops_start
  (env : Env) (cfg : gmap string JsVal) (now : Z) (name : string) :
  (name ∈ Configuration.validated_settings ->
   Configuration.missing cfg name = true ->
   exists first,
     first ∈ Configuration.validated_settings
     /\ Configuration.missing cfg first = true
     /\ Configuration.load cfg = Thrown (Configuration.must_be_set first)
     /\ main env cfg now = Thrown (Configuration.must_be_set first))
  /\ (name ∈ Configuration.feed_source_settings ->
      cfg !! name = None ->
      exists e, Configuration.load cfg = Thrown e
                /\ main env cfg now = Thrown e).
Proof.
  assert (Hmain : forall cfg0 e, Configuration.load cfg0 = Thrown e ->
                                 main env cfg0 now = Thrown e).
  { intros cfg0 e He. unfold main. rewrite He. reflexivity. }
  split.
  - intros Hin Hmiss. pose proof (validate_spec cfg) as Hv.
    destruct (List.find _ _) as [first|] eqn:Hfind.
    + exists first. apply List.find_some in Hfind as Hfirst.
      destruct Hfirst as [Hfin Hfm]. apply list_elem_of_In in Hfin.
      pose proof (load_validate_throws cfg _ Hv) as Hl.
      split; [exact Hfin|]. split; [exact Hfm|].
      split; [exact Hl | by apply Hmain].
    + apply list_elem_of_In in Hin.
      pose proof (List.find_none _ _ Hfind _ Hin) as Hno. congruence.
  - intros Hin Habs.
    assert (Hex : name ∈ Configuration.exported_settings).
    { unfold Configuration.feed_source_settings in Hin.
      repeat (apply elem_of_cons in Hin as [-> | Hin]);
        [ .. | by apply elem_of_nil in Hin ];
        unfold Configuration.exported_settings; repeat constructor. }
    assert (Hl : Configuration.lookup_property cfg name = None).
    { unfold Configuration.lookup_property. by rewrite Habs. }
    destruct (load_undefined_setting cfg name Hex Hl) as [e He].
    exists e. split; [exact He | by apply Hmain].
Qed.

Lemma C7_missing_setting_stops_start_witness :
  "db.host" ∈ Configuration.validated_settings
  /\ Configuration.missing (delete "db.host" complete_cfg) "db.host" = true
  /\ exists first,
      first ∈ Configuration.validated_settings
      /\ Configuration.missing (delete "db.host" complete_cfg) first = true
      /\ Configuration.load (delete "db.host" complete_cfg)
         = Thrown (Configuration.must_be_set first)
      /\ main offline_env (delete "db.host" complete_cfg) 0
         = Thrown (Configuration.must_be_set first).
Proof.
  assert (Hin : "db.host" ∈ Configuration.validated_settings)
    by repeat constructor.
  assert (Hmiss :
    Configuration.missing (delete "db.host" complete_cfg) "db.host" = true)
    by (vm_compute; reflexivity).
  split; [exact Hin|]. split; [exact Hmiss|].
  exact (proj1 (C7_missing_setting_stops_start offline_env
                  (delete "db.host" complete_cfg) 0 "db.host") Hin Hmiss).
Defined.

(** C7, as stated, fails: with [website.url], the base URL of the news and
    events feeds, set to [null] and every other setting present, nothing
    in the configuration module rejects the null: the module is evaluated
    without exception and exports a null [websiteURL]. *)
Lemma C7_null_feed_source_counterexample :
  "website.url" ∈ Configuration.feed_source_settings
  /\ <["website.url" := JNull]> complete_cfg !! "website.url" = Some JNull
  /\ Configuration.validate (<["website.url" := JNull]> complete_cfg)
     = Returned tt
  /\ exists config,
      Configuration.load (<["website.url" := JNull]> complete_cfg)
        = Returned config
      /\ Configuration.websiteURL config = JNull.
Proof.
  split; [repeat constructor|]. split; [vm_compute; reflexivity|].
  split; [vm_compute; reflexivity|].
  eexists. split; [vm_compute; reflexivity|]. reflexivity.
Qed.

(** ** The feed cache *)

Section FeedFacts.

Lemma refresh_begin_items (f : Feed) : items (refresh_begin f) = items f.
Proof. unfold refresh_begin. by destruct (inflight f). Qed.



(** The snapshot at the end of a run is the payload of the last refresh
    that succeeded in it, or the snapshot of the start. *)
Lemma run_items (evs : list FeedEvent) (f : Feed) :
  items (run evs f).2 = last_success (items f) (settled evs f).
Proof.
  revert f. induction evs as [|ev evs IH]; intros f; [reflexivity|].
  destruct ev as [| |fetched now]; simpl.
  - specialize (IH f). destruct (run evs f). exact IH.
  - rewrite IH. by rewrite refresh_begin_items.
  - rewrite IH. unfold last_success, refresh_end.
    destruct (inflight f); simpl; [|reflexivity].
    by destruct fetched.
Qed.

Lemma last_success_all_failed (dflt : list Item)
  (outcomes : list (Outcome (list Item))) :
  Forall throws outcomes -> last_success dflt outcomes = dflt.
Proof.
  unfold last_success. induction 1 as [|o os [e ->] _ IH]; [reflexivity|].
  exact IH.
Qed.

Lemma run_reads (n : nat) (f : Feed) :
  run (replicate n Read) f = (replicate n (items f), f).
Proof.
  induction n as [|n IH]; [reflexivity|].
  simpl. by rewrite IH.
Qed.

Lemma run_app (evs1 evs2 : list FeedEvent) (f : Feed) :
  run (evs1 ++ evs2) f =
  ((run evs1 f).1 ++ (run evs2 (run evs1 f).2).1, (run evs2 (run evs1 f).2).2).
Proof.
  revert f. induction evs1 as [|ev evs1 IH]; intros f.
  - simpl. by destruct (run evs2 f).
  - destruct ev; simpl; rewrite ?IH; try reflexivity.
    destruct (run evs1 f); simpl. by destruct (run evs2 _).
Qed.

(** Whatever happens in a run, a reader gets the snapshot of the start or
    the whole list of one refresh that succeeded in the run. *)
Lemma run_snapshots (evs : list FeedEvent) (f : Feed) :
  Forall (fun snapshot =>
            snapshot = items f \/ Returned snapshot ∈ settled evs f)
         (run evs f).1.
Proof.
  revert f. induction evs as [|ev evs IH]; intros f; [constructor|].
  destruct ev as [| |fetched now]; simpl.
  - specialize (IH f). destruct (run evs f) as [seen f']. simpl in *.
    constructor; [by left | exact IH].
  - specialize (IH (refresh_begin f)). rewrite refresh_begin_items in IH.
    exact IH.
  - specialize (IH (refresh_end fetched now f).2).
    eapply Forall_impl; [exact IH|]. intros snapshot [Hs|Hs].
    + unfold refresh_end in Hs.
      destruct (inflight f); simpl in Hs; [|by left].
      destruct fetched as [l|e]; simpl in Hs; [|by left].
      right. subst snapshot. apply elem_of_app. left. constructor.
    + right. apply elem_of_app. by right.
Qed.

End FeedFacts.



(** C8. Modelled on the spec's feed cache: after any run of reads and
    refreshes of a feed, in flight or not, [getItems()] has a value (it
    has no failure case to return), leaves the feed as it is, fetch count
    included, and the value is the list of the last refresh that
    succeeded; it is the empty list when none has. *)
Theorem C8_getItems_returns_last_snapshot
  (src : JsVal) (period : Z) (evs : list FeedEvent) :
  (getItems (run evs (Feed.new src period)).2).1
    = last_success [] (settled evs (Feed.new src period))
  /\ (getItems (run evs (Feed.new src period)).2).2
     = (run evs (Feed.new src period)).2
  /\ (Forall throws (settled evs (Feed.new src period)) ->
      (getItems (run evs (Feed.new src period)).2).1 = []).
Proof.
  assert (H : (getItems (run evs (Feed.new src period)).2).1
              = last_success [] (settled evs (Feed.new src period))).
  { unfold getItems. simpl. by rewrite run_items. }
  split; [exact H|]. split; [reflexivity|].
  intros Hall. rewrite H. by apply last_success_all_failed.
Qed.

Lemma C8_getItems_returns_last_snapshot_witness :
  Forall throws
    (settled [RefreshBegins; Read; RefreshSettles (Thrown (Error "503")) 7]
             (Feed.new (JStr "https://videos.example/feed") 3600))
  /\ (getItems
       (run [RefreshBegins; Read; RefreshSettles (Thrown (Error "503")) 7]
            (Feed.new (JStr "https://videos.example/feed") 3600)).2).1 = [].
Proof.
  assert (Hall : Forall throws
    (settled [RefreshBegins; Read; RefreshSettles (Thrown (Error "503")) 7]
             (Feed.new (JStr "https://videos.example/feed") 3600))).
  { simpl. repeat constructor. by eexists. }
  split; [exact Hall|].
  exact (proj2 (proj2 (C8_getItems_returns_last_snapshot
                         (JStr "https://videos.example/feed") 3600
                         [RefreshBegins; Read;
                          RefreshSettles (Thrown (Error "503")) 7])) Hall).
Defined.

(** C9. Modelled on the spec's feed cache, with readers interleaved at the
    one suspension point of a refresh: the [n] readers that call
    [getItems()] while a refresh is in flight all get the snapshot from
    before it and the [m] readers that call after it has settled all get
    the snapshot it leaves; and in any run at all, every reader gets either
    the snapshot of the start or the whole list of one successful refresh,
    never a blend. *)
Theorem C9_readers_see_whole_snapshots
  (f : Feed) (n m : nat) (fetched : Outcome (list Item)) (now : Z) :
  inflight f = false ->
  (run (RefreshBegins :: replicate n Read
          ++ RefreshSettles fetched now :: replicate m Read) f).1
    = replicate n (items f) ++ replicate m (items (refresh fetched now f).2)
  /\ forall evs,
      Forall (fun snapshot =>
                snapshot = items f \/ Returned snapshot ∈ settled evs f)
             (run evs f).1.
Proof.
  intros Hfl. split; [|intros evs; apply run_snapshots].
  cbn [run]. rewrite run_app, run_reads. cbn [fst snd run].
  rewrite run_reads. cbn [fst]. rewrite refresh_begin_items.
  unfold refresh. by rewrite Hfl.
Qed.

Lemma C9_readers_see_whole_snapshots_witness :
  inflight warm_feed = false
  /\ (run (RefreshBegins :: replicate 2 Read
            ++ RefreshSettles (Returned [item_at 30 News]) 4000
               :: replicate 1 Read) warm_feed).1
     = [ [item_at 20 News; item_at 10 News];
         [item_at 20 News; item_at 10 News];
         [item_at 30 News] ].
Proof.
  split; [reflexivity|].
  exact (proj1 (C9_readers_see_whole_snapshots warm_feed 2 1
                  (Returned [item_at 30 News]) 4000 eq_refl)).
Defined.

(** ** The health check *)

Lemma healthz_version (v logger_error_value : JsVal) (log : list Event) :
  healthz (Returned (one_row_result v)) logger_error_value log
  = (Returned (mkResponse 200 (BodyText ("version " +:+ to_string v))), log).
Proof. reflexivity. Qed.

(** A failed query is logged; the response then depends on what
    [logger.error] returns: an object without [rows] gives the 500, and
    [undefined] makes the destructuring throw. *)
Lemma healthz_query_failure (e : JsError) (fields : list (string * JsVal))
  (log : list Event) :
  assoc "rows" fields = None ->
  healthz (Thrown e) (JObj fields) log
  = (Returned (mkResponse 500 (BodyText "no rows returned from database")),
     log ++ [LogError e])
  /\ healthz (Thrown e) JUndefined log
     = (Thrown (TypeError
          "Cannot destructure property 'rows' of '(intermediate value)' as it is undefined."),
        log ++ [LogError e]).
Proof.
  intros H. split; [|reflexivity].
  unfold healthz, destructure, get_prop, emit, await, mbind, M_bind, mret,
    M_ret.
  rewrite H. reflexivity.
Qed.

(** C10, at the input where the code departs from it: the query succeeds
    with no row, [rows] is the empty array, which is truthy, and reading
    [rows[0].version] throws; no response is sent and the promise of the
    handler is rejected. *)
Theorem C10_healthz_no_rows_throws
  (logger_error_value : JsVal) (log : list Event) :
  healthz (Returned no_rows_result) logger_error_value log
  = (Thrown (TypeError
       "Cannot read properties of undefined (reading 'version')"),
     log).
Proof. reflexivity. Qed.

(** ** Aggregation of the feeds *)

Section Aggregation.

Lemma slice0_positive {A : Type} (l : list A) (limit : Z) :
  0 < limit -> slice0 l limit = take (Z.to_nat limit) l.
Proof.
  intros Hpos. unfold slice0.
  destruct (Z.ltb_spec limit 0) as [|_]; [lia|].
  destruct (Z.le_gt_cases limit (Z.of_nat (length l))) as [Hle|Hgt].
  - by rewrite Z.min_l.
  - rewrite Z.min_r by lia. rewrite Nat2Z.id.
    rewrite !take_ge; [done | lia | lia].
Qed.

Lemma sorted_desc_take (n : nat) (l : list Item) :
  sorted_desc l = true -> sorted_desc (take n l) = true.
Proof.
  revert n. induction l as [|x l IH]; intros [|n] H; try reflexivity.
  simpl in H |- *. apply andb_prop in H as [Hx Hl].
  apply andb_true_intro. split; [|by apply IH].
  apply forallb_forall. intros y Hy.
  eapply forallb_forall in Hx; [exact Hx|].
  apply list_elem_of_In. apply list_elem_of_In in Hy.
  by apply (subseteq_take n l).
Qed.

Lemma sorted_desc_take_drop (n : nat) (l : list Item) (x y : Item) :
  sorted_desc l = true -> x ∈ take n l -> y ∈ drop n l ->
  newer_eq x y = true.
Proof.
  revert n. induction l as [|a l IH]; intros [|n] H Hx Hy; simpl in *;
    try by apply elem_of_nil in Hx.
  apply andb_prop in H as [Ha Hl].
  apply elem_of_cons in Hx as [-> | Hx].
  - eapply forallb_forall in Ha; [exact Ha|].
    apply list_elem_of_In. by apply (subseteq_drop n l).
  - by eapply IH.
Qed.

Lemma take_most_recent (n : nat) (l : list Item) :
  sorted_desc l = true -> most_recent (take n l) l.
Proof.
  intros H. split; [by apply sorted_desc_take|].
  exists (drop n l). split; [by rewrite take_drop|].
  intros x y. by apply sorted_desc_take_drop.
Qed.

Lemma createFeeds_all_read (ln le lv : list Item) (il : Outcome (list Item))
  (limit : Z) (log : list Event) :
  createFeeds (mkReads (Returned ln) (Returned le) (Returned lv) il) limit log
  = (Returned (mkFeeds (slice0 ln limit) (slice0 le limit) (slice0 lv limit)),
     log ++ [SpanStart "createFeeds"; SpanEnd]).
Proof.
  unfold createFeeds, try_finally, emit, await, mbind, M_bind, mret, M_ret.
  cbn. by rewrite <- app_assoc.
Qed.

End Aggregation.

(** C2. For a positive [limit], whatever the three caches hold,
    [createFeeds] fulfils with the object whose [news], [events] and
    [videos] are the first [limit] items of the respective snapshot, each
    feed cut on its own. A snapshot in descending time order is cut to its
    most recent items, in that order; of ten items, a limit of 3 keeps
    three. *)
Theorem C2_createFeeds_truncates_each_feed
  (ln le lv : list Item) (il : Outcome (list Item)) (limit : Z)
  (log : list Event) :
  0 < limit ->
  createFeeds (mkReads (Returned ln) (Returned le) (Returned lv) il) limit log
  = (Returned (mkFeeds (take (Z.to_nat limit) ln)
                       (take (Z.to_nat limit) le)
                       (take (Z.to_nat limit) lv)),
     log ++ [SpanStart "createFeeds"; SpanEnd])
  /\ (forall l : list Item,
        sorted_desc l = true -> most_recent (slice0 l limit) l)
  /\ (forall l : list Item,
        length l = 10%nat -> limit = 3 -> length (slice0 l limit) = 3%nat).
Proof.
  intros Hpos. split; [|split].
  - rewrite createFeeds_all_read. by rewrite !slice0_positive.
  - intros l Hl. rewrite slice0_positive by done. by apply take_most_recent.
  - intros l Hlen ->. rewrite slice0_positive by done.
    rewrite length_take. lia.
Qed.

Lemma C2_createFeeds_truncates_each_feed_witness :
  0 < 3
  /\ createFeeds (mkReads (Returned ten_news) (Returned [item_at 5 Feed.Event])
                          (Returned []) (Returned [])) 3 []
     = (Returned (mkFeeds [item_at 100 News; item_at 90 News; item_at 80 News]
                          [item_at 5 Feed.Event] []),
        [SpanStart "createFeeds"; SpanEnd])
  /\ most_recent (slice0 ten_news 3) ten_news.
Proof.
  assert (Hpos : 0 < 3) by lia.
  split; [exact Hpos|]. split.
  - exact (proj1 (C2_createFeeds_truncates_each_feed ten_news
                    [item_at 5 Feed.Event] [] (Returned []) 3 [] Hpos)).
  - exact (proj1 (proj2 (C2_createFeeds_truncates_each_feed ten_news
                    [item_at 5 Feed.Event] [] (Returned []) 3 [] Hpos))
             ten_news eq_refl).
Defined.

(** ** The handlers *)

(** One step of a handler: the promise awaited next has been fulfilled or
    rejected. *)
Ltac settle :=
  match goal with
  | |- context [match ?x with Returned _ => _ | Thrown _ => _ end] =>
      destruct x eqn:?
  | |- context [match ?x with (_, _) => _ end] => destruct x eqn:?
  end.

Ltac open_handler :=
  unfold users_handler, home_handler, feeds_handler, try_catch,
    request_interval, request_limit, spawn, await, emit, respond;
  unfold mbind, M_bind, mret, M_ret.

Lemma M_bind_returned {A B : Type} (m : M A) (f : A -> M B)
  (log log' : list Event) (b : B) :
  (m ≫= f) log = (Returned b, log') ->
  exists a log1, m log = (Returned a, log1) /\ f a log1 = (Returned b, log').
Proof.
  unfold mbind, M_bind. destruct (m log) as [[a|e] log1]; [|discriminate].
  intros H. by exists a, log1.
Qed.

Lemma await_returned {A : Type} (p : Outcome A) (log log' : list Event)
  (a : A) :
  await p log = (Returned a, log') -> p = Returned a /\ log' = log.
Proof. unfold await. by intros [= -> ->]. Qed.

Section Handlers.

Variable c : Collaborators.
Variable r : FeedReads.
Variable req : Request.

Lemma createFeeds_read_fails (limit : Z) (log : list Event) (e : JsError) :
  news_getItems r = Thrown e \/ events_getItems r = Thrown e
    \/ videos_getItems r = Thrown e ->
  exists e',
    createFeeds r limit log = (Thrown e', log ++ [SpanStart "createFeeds"; SpanEnd])
    /\ (news_getItems r = Thrown e' \/ events_getItems r = Thrown e'
        \/ videos_getItems r = Thrown e').
Proof.
  intros H.
  unfold createFeeds, try_finally, emit, await, mbind, M_bind, mret, M_ret.
  destruct (news_getItems r) as [ln|en]; cbn.
  - destruct (events_getItems r) as [le|ee]; cbn.
    + destruct (videos_getItems r) as [lv|ev]; cbn.
      * by destruct H as [|[|]].
      * exists ev. rewrite <- app_assoc. auto.
    + exists ee. rewrite <- app_assoc. auto.
  - exists en. rewrite <- app_assoc. auto.
Qed.

Lemma feeds_handler_read_fails (log : list Event) :
  (forall limit log0, exists e', createFeeds r limit log0
     = (Thrown e', log0 ++ [SpanStart "createFeeds"; SpanEnd])) ->
  exists reason log',
    feeds_handler c r req log
    = (Returned (mkResponse 500 (BodyReason reason)), log').
Proof.
  intros Hcf. open_handler.
  repeat first
    [ match goal with
      | |- context [createFeeds r ?l ?g] => destruct (Hcf l g) as [? ->]
      end
    | settle ];
  by do 2 eexists.
Qed.

Lemma home_handler_read_fails (log : list Event) :
  (forall limit log0, exists e', createFeeds r limit log0
     = (Thrown e', log0 ++ [SpanStart "createFeeds"; SpanEnd])) ->
  exists reason log',
    home_handler c r req log
    = (Returned (mkResponse 500 (BodyReason reason)), log').
Proof.
  intros Hcf. open_handler.
  repeat first
    [ match goal with
      | |- context [createFeeds r ?l ?g] => destruct (Hcf l g) as [? ->]
      end
    | settle ];
  by do 2 eexists.
Qed.

End Handlers.

(** C3 (amended). When the read of one of the three caches throws,
    [createFeeds] ends its span and rejects with the error of a failed
    read, and the handlers of [/feeds] and [/], which await it where they
    call it, answer 500 with a reason: no feed section is returned. *)
Theorem C3_failed_read_fails_the_aggregation
  (c : Collaborators) (r : FeedReads) (req : Request) (limit : Z)
  (log : list Event) (e : JsError) :
  news_getItems r = Thrown e \/ events_getItems r = Thrown e
    \/ videos_getItems r = Thrown e ->
  (exists e',
     createFeeds r limit log
       = (Thrown e', log ++ [SpanStart "createFeeds"; SpanEnd])
     /\ (news_getItems r = Thrown e' \/ events_getItems r = Thrown e'
         \/ videos_getItems r = Thrown e'))
  /\ (exists reason log',
       feeds_handler c r req log
       = (Returned (mkResponse 500 (BodyReason reason)), log'))
  /\ (exists reason log',
       home_handler c r req log
       = (Returned (mkResponse 500 (BodyReason reason)), log')).
Proof.
  intros H.
  assert (Hcf : forall limit0 log0, exists e', createFeeds r limit0 log0
            = (Thrown e', log0 ++ [SpanStart "createFeeds"; SpanEnd])).
  { intros limit0 log0.
    destruct (createFeeds_read_fails r limit0 log0 e H) as (e' & He' & _).
    by exists e'. }
  split; [by apply (createFeeds_read_fails r limit log e)|].
  split; [by apply feeds_handler_read_fails|].
  by apply home_handler_read_fails.
Qed.

Lemma C3_failed_read_fails_the_aggregation_witness :
  (news_getItems videos_read_fails = Thrown (Error "videos unavailable")
   \/ events_getItems videos_read_fails = Thrown (Error "videos unavailable")
   \/ videos_getItems videos_read_fails = Thrown (Error "videos unavailable"))
  /\ exists reason log',
      home_handler steady_collaborators videos_read_fails plain_request []
      = (Returned (mkResponse 500 (BodyReason reason)), log').
Proof.
  assert (H :
    news_getItems videos_read_fails = Thrown (Error "videos unavailable")
    \/ events_getItems videos_read_fails = Thrown (Error "videos unavailable")
    \/ videos_getItems videos_read_fails = Thrown (Error "videos unavailable")).
  { right. right. reflexivity. }
  split; [exact H|].
  exact (proj2 (proj2 (C3_failed_read_fails_the_aggregation
           steady_collaborators videos_read_fails plain_request 10 []
           (Error "videos unavailable") H))).
Defined.

(** C3, as stated, fails: the reads of news and events succeed and the
    read of the videos throws, and the response of [/feeds] is the 500
    with the reason; it has no news and no events section. *)
Lemma C3_partial_aggregation_counterexample :
  news_getItems videos_read_fails = Returned [item_at 20 News; item_at 10 News]
  /\ events_getItems videos_read_fails = Returned [item_at 5 Feed.Event]
  /\ videos_getItems videos_read_fails = Thrown (Error "videos unavailable")
  /\ feeds_handler steady_collaborators videos_read_fails plain_request []
     = (Returned
          (mkResponse 500
             (BodyReason "error getting feeds: videos unavailable")),
        [ SpanStart "createFeeds"; SpanEnd;
          LogError (Error "videos unavailable") ])
  /\ createFeeds videos_read_fails 10 []
     = (Thrown (Error "videos unavailable"),
        [ SpanStart "createFeeds"; SpanEnd ]).
Proof. repeat split; reflexivity. Qed.

(** C4. For every limit and whatever the caches hold: when the promises
    the handler of [/users/:username] awaits are fulfilled, it answers 200
    with a dashboard whose [instantLaunches] is the whole snapshot of the
    instant-launches cache, while each feed section is cut to the limit;
    and in any 200 it sends, [instantLaunches] is that whole snapshot. *)
Theorem C4_instant_launches_not_truncated
  (c : Collaborators) (w : World) (fn fe fv fil : Feed) (req : Request)
  (log : list Event)
  (raw validated_interval ids featured : JsVal) (validated : option Z)
  (added public used popular recent running : JsVal) :
  let user := req_username req in
  let limit := default 10 validated in
  let interval :=
    js_coalesce validated_interval (DEFAULT_START_DATE_INTERVAL c) in
  w NewsFeed = Some fn -> w EventsFeed = Some fe -> w VideosFeed = Some fv ->
  w IlFeed = Some fil ->
  get_prop (req_query req) "start-date-interval" = Returned raw ->
  validateInterval c raw = Returned validated_interval ->
  validateLimit c (get_prop_opt (req_query req) "limit") = Returned validated ->
  getPublicAppIDs c = Returned ids ->
  recentlyAddedData c user limit ids = Returned added ->
  publicAppsData c user limit ids = Returned public ->
  getRecentlyUsedApps c user limit interval ids = Returned used ->
  getFilteredTargetIds c ["app"] ids (FEATURED_APPS_AVUS c) user
    = Returned featured ->
  popularFeaturedData c user limit featured interval = Returned popular ->
  recentAnalysesData c user limit = Returned recent ->
  runningAnalysesData c user limit = Returned running ->
  users_handler c (reads_of w) req log
  = (Returned
       (mkResponse 200
          (BodyDashboard
             (mkDashboard added public used popular
                (get_prop_opt recent "analyses")
                (get_prop_opt running "analyses")
                (items fil)
                (mkFeeds (slice0 (items fn) limit) (slice0 (items fe) limit)
                         (slice0 (items fv) limit))))),
     log ++ [SpanStart "createFeeds"; SpanEnd])
  /\ forall resp log',
      users_handler c (reads_of w) req log = (Returned resp, log') ->
      status resp = 200 ->
      exists d, body resp = BodyDashboard d
                /\ instantLaunches d = items fil.
Proof.
  intros user limit interval Hn He Hv Hil Hraw Hinterval Hlimit Hids Hadded
    Hpublic Hused Hfeatured Hpopular Hrecent Hrunning.
  subst user limit interval.
  assert (Hreads : reads_of w
                   = mkReads (Returned (items fn)) (Returned (items fe))
                             (Returned (items fv)) (Returned (items fil))).
  { unfold reads_of, read_feed. by rewrite Hn, He, Hv, Hil. }
  rewrite Hreads. split.
  - unfold users_handler, try_catch, request_interval, request_limit, spawn,
      await, respond.
    unfold mbind, M_bind, mret, M_ret.
    rewrite Hraw, Hinterval, Hlimit, createFeeds_all_read.
    cbn [il_getItems].
    by rewrite Hids, Hfeatured, Hadded, Hpublic, Hused, Hpopular, Hrecent,
      Hrunning.
  - intros resp log' Hresp H200. unfold users_handler, try_catch in Hresp.
    match type of Hresp with
    | context [match ?body log with _ => _ end] =>
        destruct (body log) as [[resp0|e0] log1] eqn:Hbody
    end.
    + injection Hresp as -> ->. cbv zeta in Hbody.
      repeat (apply M_bind_returned in Hbody as (? & ? & ? & Hbody)).
      repeat match goal with
             | H : await _ _ = (Returned _, _) |- _ =>
                 apply await_returned in H as [? ?]
             end.
      unfold respond, mret, M_ret in Hbody. injection Hbody as <- _.
      eexists. split; [reflexivity|]. cbn in *. congruence.
    + unfold emit, respond, mbind, M_bind, mret, M_ret in Hresp.
      injection Hresp as <- _. discriminate H200.
Qed.

Lemma C4_instant_launches_not_truncated_witness :
  users_handler steady_collaborators (reads_of serving_world)
                limit_one_request []
  = (Returned
       (mkResponse 200
          (BodyDashboard
             (mkDashboard (JArr []) (JArr []) (JArr []) (JArr [])
                (JArr []) (JArr [])
                [ item_at 3 InstantLaunch; item_at 2 InstantLaunch;
                  item_at 1 InstantLaunch ]
                (mkFeeds [item_at 20 News] [item_at 20 News]
                         [item_at 20 News])))),
     [ SpanStart "createFeeds"; SpanEnd ]).
Proof.
  exact (proj1 (C4_instant_launches_not_truncated steady_collaborators
           serving_world warm_feed warm_feed warm_feed launches_feed
           limit_one_request []
           JUndefined JUndefined (JArr []) (JArr []) (Some 1)
           (JArr []) (JArr []) (JArr []) (JArr [])
           (JObj [("analyses", JArr [])]) (JObj [("analyses", JArr [])])
           eq_refl eq_refl eq_refl eq_refl eq_refl eq_refl eq_refl eq_refl
           eq_refl eq_refl eq_refl eq_refl eq_refl eq_refl eq_refl)).
Defined.

(** ** Process start *)

Section Startup.

Variable env : Env.
Variable config : Configuration.Exports.

Lemma tick_not_scheduled (fetched : Outcome (list Item)) (now : Z)
  (f : Feed) :
  schedule f = NotScheduled -> tick fetched now f = f.
Proof. unfold tick. by intros ->. Qed.

(** A feed without a scheduler is out of the reach of the timers. *)
Lemma run_timers_not_scheduled (ts : list Timer) (w : World)
  (name : FeedName) (f : Feed) :
  w name = Some f -> schedule f = NotScheduled ->
  run_timers env ts w name = Some f.
Proof.
  intros Hw Hs. revert w Hw.
  induction ts as [|[g now] ts IH]; intros w Hw; [exact Hw|].
  unfold run_timers in *. cbn [foldl]. apply IH.
  unfold fire, on_feed, set_feed. destruct (decide (name = g)) as [<-|_].
  - rewrite Hw. cbn. by rewrite tick_not_scheduled.
  - exact Hw.
Qed.

Lemma startup_il (t0 : Z) :
  startup env config t0 IlFeed
  = Some (Feed.new (Configuration.appExposerURL config)
                   (refresh_interval env IlFeed)).
Proof. reflexivity. Qed.


End Startup.

(** C5. The top level of [index.js] constructs the instant-launches feed
    and calls neither [pullItems], nor [scheduleRefresh], nor [start] on
    it; and whatever timers fire afterwards, the feed stays as constructed:
    no fetch, no scheduler, an empty cache. *)
Theorem C5_instant_launches_feed_never_started
  (env : Env) (config : Configuration.Exports) (t0 : Z)
  (timers : list Timer) :
  New IlFeed (Configuration.appExposerURL config) ∈ startup_calls env config
  /\ (PullItems IlFeed ∉ startup_calls env config)
  /\ (ScheduleRefresh IlFeed ∉ startup_calls env config)
  /\ (Start IlFeed ∉ startup_calls env config)
  /\ run_timers env timers (startup env config t0) IlFeed
     = Some (mkFeed (Configuration.appExposerURL config)
                    (refresh_interval env IlFeed) [] None 0 false
                    NotScheduled).
Proof.
  split; [|split; [|split; [|split]]].
  - cbn. repeat constructor.
  - cbn. intros H.
    repeat (apply elem_of_cons in H as [H|H]; [discriminate H|]).
    by apply elem_of_nil in H.
  - cbn. intros H.
    repeat (apply elem_of_cons in H as [H|H]; [discriminate H|]).
    by apply elem_of_nil in H.
  - cbn. intros H.
    repeat (apply elem_of_cons in H as [H|H]; [discriminate H|]).
    by apply elem_of_nil in H.
  - apply run_timers_not_scheduled; [apply startup_il | reflexivity].
Qed.

Lemma load_complete_cfg :
  Configuration.load complete_cfg = Returned loaded_config.
Proof. vm_compute. reflexivity. Qed.




(** * Further properties of [configuration.js] *)

(** ** [parseInt] on printed integers *)

Section ParseInt.

Lemma digit_of_pretty_N_char (d : N) :
  (d < 10)%N -> digit_of (pretty_N_char d) = Some (Z.of_N d).
Proof.
  intros Hd.
  assert (d = 0 \/ d = 1 \/ d = 2 \/ d = 3 \/ d = 4 \/ d = 5 \/ d = 6
          \/ d = 7 \/ d = 8 \/ d = 9)%N as H by lia.
  repeat (destruct H as [->|H]; [reflexivity|]). by subst.
Qed.

(** Reading back the digits that [pretty] writes. *)
Lemma digits_pretty_N_go (x : N) (s : string) :
  (0 < x)%N -> digits None (pretty_N_go x s) = digits (Some (Z.of_N x)) s.
Proof.
  revert s. induction (N.lt_wf_0 x) as [x _ IH]; intros s Hx.
  rewrite pretty_N_go_step by done.
  assert (Hmod : (x `mod` 10 < 10)%N) by (apply N.mod_lt; lia).
  assert (Hdm : 10 * Z.of_N (x `div` 10) + Z.of_N (x `mod` 10) = Z.of_N x).
  { pose proof (N.div_mod x 10 ltac:(lia)) as H.
    set (q := (x `div` 10)%N) in *. set (r := (x `mod` 10)%N) in *.
    clearbody q r. lia. }
  assert (Hlt : (x `div` 10 < x)%N) by (apply N.div_lt; lia).
  destruct (decide (x `div` 10 = 0)%N) as [Hz|Hnz].
  - rewrite Hz in Hdm |- *. rewrite pretty_N_go_0. cbn [digits].
    rewrite digit_of_pretty_N_char by done. cbn [default from_option id].
    by rewrite <- Hdm.
  - rewrite IH; [|exact Hlt|by apply N.neq_0_lt_0]. cbn [digits].
    rewrite digit_of_pretty_N_char by done. cbn [default from_option id].
    by rewrite Hdm.
Qed.

Lemma pretty_N_go_head (x : N) (s : string) :
  (0 < x)%N ->
  exists d rest, (d < 10)%N /\ pretty_N_go x s = String (pretty_N_char d) rest.
Proof.
  revert s. induction (N.lt_wf_0 x) as [x _ IH]; intros s Hx.
  rewrite pretty_N_go_step by done.
  destruct (decide (x `div` 10 = 0)%N) as [Hz|Hnz].
  - rewrite Hz, pretty_N_go_0. eexists _, _. split; [|reflexivity].
    apply N.mod_lt; lia.
  - apply IH; [apply N.div_lt; lia | by apply N.neq_0_lt_0].
Qed.

Lemma parseInt10_digit_head (d : N) (rest : string) :
  (d < 10)%N ->
  parseInt10 (JStr (String (pretty_N_char d) rest))
  = match digits None (String (pretty_N_char d) rest) with
    | Some n => JNum n
    | None => JNaN
    end.
Proof.
  intros Hd.
  assert (d = 0 \/ d = 1 \/ d = 2 \/ d = 3 \/ d = 4 \/ d = 5 \/ d = 6
          \/ d = 7 \/ d = 8 \/ d = 9)%N as H by lia.
  repeat (destruct H as [->|H]; [reflexivity|]). by subst.
Qed.

Lemma parseInt10_pretty_positive (p : positive) :
  parseInt10 (JStr (pretty (Npos p))) = JNum (Zpos p).
Proof.
  unfold pretty, pretty_N. case_decide; [discriminate|].
  destruct (pretty_N_go_head (Npos p) "") as (d & rest & Hd & Hhead); [lia|].
  rewrite Hhead, parseInt10_digit_head by done. rewrite <- Hhead.
  rewrite digits_pretty_N_go by lia. reflexivity.
Qed.

Lemma parseInt10_minus (rest : string) :
  parseInt10 (JStr (String "-" rest))
  = match digits None rest with
    | Some n => JNum (- n)
    | None => JNaN
    end.
Proof. reflexivity. Qed.

(** [parseInt(String(n), 10)] is [n]. *)
Lemma parseInt10_pretty (n : Z) : parseInt10 (JStr (pretty n)) = JNum n.
Proof.
  destruct n as [|p|p]; [reflexivity|apply parseInt10_pretty_positive|].
  change (pretty (Z.neg p)) with (String "-" (pretty (N.pos p))).
  rewrite parseInt10_minus.
  unfold pretty, pretty_N. case_decide; [discriminate|].
  rewrite digits_pretty_N_go by lia. reflexivity.
Qed.

Lemma parseInt10_number (n : Z) : parseInt10 (JNum n) = JNum n.
Proof. exact (parseInt10_pretty n). Qed.

End ParseInt.

(** ** Validation and exports *)

Lemma outcome_bind_returned {A B : Type} (m : Outcome A) (f : A -> Outcome B)
  (b : B) :
  m ≫= f = Returned b -> exists a, m = Returned a /\ f a = Returned b.
Proof. destruct m as [a|e]; [by exists a | discriminate]. Qed.

Lemma outcome_fmap_returned {A B : Type} (m : Outcome A) (f : A -> B) (b : B) :
  f <$> m = Returned b -> exists a, m = Returned a /\ b = f a.
Proof. destruct m as [a|e]; [|discriminate]. intros [= <-]. by exists a. Qed.

(** From a load that returned: every read returned and the exports are
    built from the values read. *)
Ltac invert_load H :=
  unfold Configuration.load in H;
  repeat (apply outcome_bind_returned in H as (? & ? & H));
  repeat match goal with
         | Hf : _ <$> _ = Returned _ |- _ =>
             apply outcome_fmap_returned in Hf as (? & ? & ->)
         end;
  injection H as <-.

Lemma find_first {A : Type} (f : A -> bool) (l : list A) (x : A) :
  List.find f l = Some x ->
  exists before after,
    l = before ++ x :: after
    /\ f x = true
    /\ forall y, y ∈ before -> f y = false.
Proof.
  induction l as [|a l IH]; [discriminate|]. cbn [List.find].
  destruct (f a) eqn:Hfa.
  - intros [= ->]. exists [], l. split; [reflexivity|]. split; [exact Hfa|].
    intros y Hy. by apply elem_of_nil in Hy.
  - intros Hfind. destruct (IH Hfind) as (before & after & -> & Hx & Hb).
    exists (a :: before), after. split; [reflexivity|]. split; [exact Hx|].
    intros y Hy. apply elem_of_cons in Hy as [->|Hy]; [exact Hfa | by apply Hb].
Qed.

(** X1. [validateConfigSetting] accepts a setting exactly when it is bound
    to a value other than [undefined] and [null]; an empty string, zero or
    [false] passes. In every other case it throws the error that names the
    setting. *)
Theorem X1_validateConfigSetting_accepts_iff
  (cfg : gmap string JsVal) (name : string) :
  (Configuration.validateConfigSetting cfg name = Returned tt
   <-> exists v, cfg !! name = Some v /\ v <> JUndefined /\ v <> JNull)
  /\ (Configuration.validateConfigSetting cfg name = Returned tt
      \/ Configuration.validateConfigSetting cfg name
         = Thrown (Error (name +:+ " must be set in the configuration"))).
Proof.
  rewrite validateConfigSetting_spec. unfold Configuration.missing.
  destruct (cfg !! name) as [v|] eqn:Hv.
  - destruct v; (split; [split|]);
      try (intros _; eexists; by repeat split);
      try (intros H; discriminate H);
      try (intros (v' & [= <-] & H1 & H2); congruence);
      first [by left | by right].
  - split; [split|by right]; [intros H; discriminate H|].
    intros (v' & H & _). discriminate H.
Qed.

(** X2. [validate] returns exactly when none of its ten settings is
    missing; when it throws, the error names the earliest missing setting
    of its list: every setting checked before it is present. *)
Theorem X2_validate_reports_first_missing (cfg : gmap string JsVal) :
  (Configuration.validate cfg = Returned tt
   <-> forall name, name ∈ Configuration.validated_settings ->
                    Configuration.missing cfg name = false)
  /\ (forall e, Configuration.validate cfg = Thrown e ->
      exists before name after,
        Configuration.validated_settings = before ++ name :: after
        /\ e = Error (name +:+ " must be set in the configuration")
        /\ Configuration.missing cfg name = true
        /\ forall earlier, earlier ∈ before ->
                           Configuration.missing cfg earlier = false).
Proof.
  rewrite validate_spec.
  destruct (List.find (Configuration.missing cfg)
              Configuration.validated_settings) as [first|] eqn:Hfind.
  - split.
    + split; [intros H; discriminate H|]. intros Hall.
      apply List.find_some in Hfind as [Hin Hm].
      apply list_elem_of_In in Hin. rewrite (Hall _ Hin) in Hm. discriminate.
    + intros e [= <-].
      destruct (find_first _ _ _ Hfind) as (before & after & Hl & Hm & Hb).
      by exists before, first, after.
  - split; [|intros e H; discriminate H].
    split; [|done]. intros _ name Hin. apply list_elem_of_In in Hin.
    exact (List.find_none _ _ Hfind _ Hin).
Qed.


(** X4. When the module loads, [logLevel], [logLabel] and [appExposerURL]
    are the configured value if that value is truthy and the default of
    the source otherwise (a [null], empty or zero setting takes the
    default); none of the three is ever falsy. *)
Theorem X4_defaulted_exports
  (cfg : gmap string JsVal) (config : Configuration.Exports) :
  Configuration.load cfg = Returned config ->
  exists level label url,
    Configuration.get cfg "logging.level" = Returned level
    /\ Configuration.get cfg "logging.label" = Returned label
    /\ Configuration.get cfg "app-exposer.url" = Returned url
    /\ Configuration.logLevel config
       = (if truthy level then level else JStr "info")
    /\ Configuration.logLabel config
       = (if truthy label then label else JStr "dashboard-aggregator")
    /\ Configuration.appExposerURL config
       = (if truthy url then url else JStr "http://app-exposer")
    /\ truthy (Configuration.logLevel config) = true
    /\ truthy (Configuration.logLabel config) = true
    /\ truthy (Configuration.appExposerURL config) = true.
Proof.
  intros Hload. invert_load Hload.
  eexists _, _, _. repeat (split; [eassumption || reflexivity|]).
  cbn. unfold js_or.
  repeat split; match goal with
                | |- truthy (if truthy ?v then _ else _) = true =>
                    by destruct (truthy v) eqn:?
                end.
Qed.

Lemma X4_defaulted_exports_witness :
  Configuration.load complete_cfg = Returned loaded_config
  /\ Configuration.logLabel loaded_config = JStr "dashboard-aggregator"
  /\ Configuration.appExposerURL loaded_config = JStr "http://app-exposer"
  /\ exists level label url,
    Configuration.get complete_cfg "logging.level" = Returned level
    /\ Configuration.get complete_cfg "logging.label" = Returned label
    /\ Configuration.get complete_cfg "app-exposer.url" = Returned url
    /\ Configuration.logLevel loaded_config
       = (if truthy level then level else JStr "info")
    /\ Configuration.logLabel loaded_config
       = (if truthy label then label else JStr "dashboard-aggregator")
    /\ Configuration.appExposerURL loaded_config
       = (if truthy url then url else JStr "http://app-exposer")
    /\ truthy (Configuration.logLevel loaded_config) = true
    /\ truthy (Configuration.logLabel loaded_config) = true
    /\ truthy (Configuration.appExposerURL loaded_config) = true.
Proof.
  split; [exact load_complete_cfg|]. split; [reflexivity|].
  split; [reflexivity|].
  exact (X4_defaulted_exports complete_cfg loaded_config load_complete_cfg).
Defined.

(** X5. A port or index that is configured as a boolean, an object, an
    empty string or an empty array passes [validate], and when the module
    loads the export made from it is [NaN]: [parseInt] finds no digit in
    its text and nothing checks the result. *)
Theorem X5_unparsable_setting_exports_NaN
  (cfg : gmap string JsVal) (config : Configuration.Exports) (v : JsVal) :
  Configuration.load cfg = Returned config ->
  (exists b, v = JBool b) \/ (exists fields, v = JObj fields)
    \/ v = JStr "" \/ v = JArr [] ->
  (forall name, cfg !! name = Some v ->
                Configuration.validateConfigSetting cfg name = Returned tt)
  /\ (Configuration.get cfg "db.port" = Returned v ->
      Configuration.dbPort config = JNaN)
  /\ (Configuration.get cfg "listen_port" = Returned v ->
      Configuration.listenPort config = JNaN)
  /\ (Configuration.get cfg "apps.favorites_group_index" = Returned v ->
      Configuration.favoritesGroupIndex config = JNaN).
Proof.
  intros Hload Hv.
  assert (Hnan : parseInt10 v = JNaN).
  { destruct Hv as [[[] ->]|[[fields ->]|[->| ->]]]; reflexivity. }
  assert (Hok : v <> JUndefined /\ v <> JNull).
  { destruct Hv as [[b ->]|[[fields ->]|[->| ->]]]; by split. }
  split.
  - intros name Hname. rewrite validateConfigSetting_spec.
    unfold Configuration.missing. rewrite Hname.
    destruct Hv as [[b ->]|[[fields ->]|[->| ->]]]; reflexivity.
  - invert_load Hload. cbn.
    repeat split; intros Hget;
      match type of Hget with
      | Configuration.get cfg ?k = Returned ?u =>
          match goal with
          | H : Configuration.get cfg k = Returned ?w |- _ =>
              assert (w = u) as -> by congruence
          end
      end;
      exact Hnan.
Qed.

Lemma X5_unparsable_setting_exports_NaN_witness :
  (exists config,
     Configuration.load (<["listen_port" := JBool true]> complete_cfg)
     = Returned config
     /\ Configuration.listenPort config = JNaN).
Proof.
  assert (Hload :
    Configuration.load (<["listen_port" := JBool true]> complete_cfg)
    = Returned
        (Configuration.mkExports (JStr "de") (JStr "notprod") (JStr "db")
           (JNum 5432) (JStr "de") (JStr "debug")
           (JStr "dashboard-aggregator") JNaN (JStr "http://permissions")
           (JStr "public") (JStr "https://cyverse.org") (JStr "/rss/news")
           (JStr "/rss/events") (JStr "https://videos.example/feed")
           (JStr "http://app-exposer") (JStr "de") (JNum 0)
           (JStr "http://apps") (JStr "http://metadata") (JStr "featured")
           (JStr "true"))) by (vm_compute; reflexivity).
  eexists. split; [exact Hload|].
  apply (proj1 (proj2 (proj2 (X5_unparsable_setting_exports_NaN _ _
                                (JBool true) Hload
                                (or_introl (ex_intro _ true eq_refl)))))).
  vm_compute. reflexivity.
Defined.

(** X6. A port or index configured as an integer [n] within the safe
    integers, or as the decimal string of [n], is exported as the number
    [n]. *)
Theorem X6_integer_settings_round_trip
  (cfg : gmap string JsVal) (config : Configuration.Exports) (n : Z) :
  Configuration.load cfg = Returned config ->
  Z.abs n <= 9007199254740991 ->
  (Configuration.get cfg "db.port" = Returned (JNum n)
   \/ Configuration.get cfg "db.port" = Returned (JStr (pretty n)) ->
   Configuration.dbPort config = JNum n)
  /\ (Configuration.get cfg "listen_port" = Returned (JNum n)
      \/ Configuration.get cfg "listen_port" = Returned (JStr (pretty n)) ->
      Configuration.listenPort config = JNum n)
  /\ (Configuration.get cfg "apps.favorites_group_index" = Returned (JNum n)
      \/ Configuration.get cfg "apps.favorites_group_index"
         = Returned (JStr (pretty n)) ->
      Configuration.favoritesGroupIndex config = JNum n).
Proof.
  intros Hload _. invert_load Hload. cbn.
  repeat split; intros [Hget|Hget];
    match type of Hget with
    | Configuration.get cfg ?k = Returned ?v =>
        match goal with
        | H : Configuration.get cfg k = Returned ?w |- _ =>
            assert (w = v) as -> by congruence
        end
    end;
    first [apply parseInt10_number | apply parseInt10_pretty].
Qed.

Lemma X6_integer_settings_round_trip_witness :
  Configuration.load complete_cfg = Returned loaded_config
  /\ Z.abs 3000 <= 9007199254740991
  /\ Configuration.listenPort loaded_config = JNum 3000.
Proof.
  assert (Hb : Z.abs 3000 <= 9007199254740991) by (vm_compute; discriminate).
  split; [exact load_complete_cfg|]. split; [exact Hb|].
  apply (proj1 (proj2 (X6_integer_settings_round_trip complete_cfg
                         loaded_config 3000 load_complete_cfg Hb))).
  right. vm_compute. reflexivity.
Defined.

(** X7. The feeds are constructed from the configuration: when the module
    loads, the news and the events feed get [feedURL] of the configured
    [website.url] and of their own path, the video feed gets the
    configured [videos.url], and the instant-launches feed gets the
    configured [app-exposer.url], or [http://app-exposer] when that one is
    falsy. *)
Theorem X7_feeds_constructed_from_configuration
  (env : Env) (cfg : gmap string JsVal) (config : Configuration.Exports) :
  Configuration.load cfg = Returned config ->
  exists base news_path events_path videos exposer,
    Configuration.get cfg "website.url" = Returned base
    /\ Configuration.get cfg "website.feeds.news" = Returned news_path
    /\ Configuration.get cfg "website.feeds.events" = Returned events_path
    /\ Configuration.get cfg "videos.url" = Returned videos
    /\ Configuration.get cfg "app-exposer.url" = Returned exposer
    /\ New NewsFeed (feedURL env base news_path) ∈ startup_calls env config
    /\ New EventsFeed (feedURL env base events_path)
         ∈ startup_calls env config
    /\ New VideosFeed videos ∈ startup_calls env config
    /\ New IlFeed (if truthy exposer then exposer
                   else JStr "http://app-exposer")
         ∈ startup_calls env config.
Proof.
  intros Hload. invert_load Hload.
  eexists _, _, _, _, _. repeat (split; [eassumption|]).
  cbn. repeat split; repeat constructor.
Qed.

Lemma X7_feeds_constructed_from_configuration_witness :
  Configuration.load complete_cfg = Returned loaded_config
  /\ New NewsFeed (JStr "https://cyverse.org/rss/news")
       ∈ startup_calls offline_env loaded_config
  /\ New IlFeed (JStr "http://app-exposer")
       ∈ startup_calls offline_env loaded_config.
Proof.
  split; [exact load_complete_cfg|].
  destruct (X7_feeds_constructed_from_configuration offline_env complete_cfg
              loaded_config load_complete_cfg)
    as (base & news_path & events_path & videos & exposer
        & Hb & Hn & He & Hv & Hx & Hnews & _ & _ & Hil).
  vm_compute in Hb, Hn, Hx.
  injection Hb as <-. injection Hn as <-. injection Hx as <-.
  split; [exact Hnews | exact Hil].
Defined.

(** * Further properties of [index.js] *)

(** ** [createFeeds] *)

Lemma slice0_prefix {A : Type} (l : list A) (limit : Z) :
  slice0 l limit `prefix_of` l.
Proof. unfold slice0. apply prefix_take. Qed.

Lemma slice0_length {A : Type} (l : list A) (limit : Z) :
  Z.of_nat (length (slice0 l limit))
  = if limit <? 0 then Z.max (Z.of_nat (length l) + limit) 0
    else Z.min limit (Z.of_nat (length l)).
Proof.
  unfold slice0. rewrite length_take.
  destruct (Z.ltb_spec limit 0); lia.
Qed.

Lemma createFeeds_log (r : FeedReads) (limit : Z) (log : list Event) :
  (createFeeds r limit log).2 = log ++ [SpanStart "createFeeds"; SpanEnd].
Proof.
  unfold createFeeds, try_finally, emit, await, mbind, M_bind, mret, M_ret.
  destruct (news_getItems r); cbn; [|by rewrite <- app_assoc].
  destruct (events_getItems r); cbn; [|by rewrite <- app_assoc].
  destruct (videos_getItems r); cbn; by rewrite <- app_assoc.
Qed.

(** X8. For every limit, also zero, negative or larger than a cache,
    [createFeeds] over three readable caches fulfils, and each section is
    a beginning of its snapshot, in the snapshot's order: of the first
    [limit] items when [limit] is not negative (all of them when
    [limit] exceeds the length, none when it is zero) and of all but the
    last [-limit] items when it is negative. *)
Theorem X8_createFeeds_sections_are_prefixes
  (ln le lv : list Item) (il : Outcome (list Item)) (limit : Z)
  (log : list Event) :
  exists fs,
    (createFeeds (mkReads (Returned ln) (Returned le) (Returned lv) il)
                 limit log).1 = Returned fs
    /\ Forall2
         (fun section snapshot =>
            section `prefix_of` snapshot
            /\ Z.of_nat (length section)
               = if limit <? 0
                 then Z.max (Z.of_nat (length snapshot) + limit) 0
                 else Z.min limit (Z.of_nat (length snapshot)))
         [news fs; events fs; videos fs] [ln; le; lv].
Proof.
  rewrite createFeeds_all_read. eexists. split; [reflexivity|].
  cbn [news events videos].
  repeat constructor; first [apply slice0_prefix | apply slice0_length].
Qed.

(** X9. [createFeeds] starts one span and ends it, whether it fulfils or
    rejects, and leaves nothing else behind. *)
Theorem X9_createFeeds_always_ends_its_span
  (r : FeedReads) (limit : Z) (log : list Event) :
  (createFeeds r limit log).2 = log ++ [SpanStart "createFeeds"; SpanEnd].
Proof. apply createFeeds_log. Qed.

(** X10. The reads are awaited in the order news, events, videos:
    [createFeeds] rejects with the error of the first read that fails in
    that order, whatever the later reads do, and it fulfils only when all
    three reads succeed, with the three slices. *)
Theorem X10_createFeeds_rejects_with_first_failed_read
  (r : FeedReads) (limit : Z) (log : list Event) :
  (forall e, news_getItems r = Thrown e ->
             (createFeeds r limit log).1 = Thrown e)
  /\ (forall ln e,
        news_getItems r = Returned ln -> events_getItems r = Thrown e ->
        (createFeeds r limit log).1 = Thrown e)
  /\ (forall ln le e,
        news_getItems r = Returned ln -> events_getItems r = Returned le ->
        videos_getItems r = Thrown e ->
        (createFeeds r limit log).1 = Thrown e)
  /\ (forall fs,
        (createFeeds r limit log).1 = Returned fs ->
        exists ln le lv,
          news_getItems r = Returned ln
          /\ events_getItems r = Returned le
          /\ videos_getItems r = Returned lv
          /\ fs = mkFeeds (slice0 ln limit) (slice0 le limit)
                          (slice0 lv limit)).
Proof.
  unfold createFeeds, try_finally, emit, await, mbind, M_bind, mret, M_ret.
  repeat split.
  - by intros e ->.
  - by intros ln e -> ->.
  - by intros ln le e -> -> ->.
  - intros fs.
    destruct (news_getItems r) as [ln|]; cbn; [|discriminate].
    destruct (events_getItems r) as [le|]; cbn; [|discriminate].
    destruct (videos_getItems r) as [lv|]; cbn; [|discriminate].
    intros [= <-]. by exists ln, le, lv.
Qed.

(** ** The health check *)

Lemma get_prop_defined (v : JsVal) (name : string) :
  nullish v = false -> get_prop v name = Returned (get_prop_opt v name).
Proof. by destruct v. Qed.

Lemma destructure_defined (v : JsVal) (name : string) :
  nullish v = false -> destructure v name = Returned (get_prop_opt v name).
Proof. by destruct v. Qed.

Lemma get_prop_nullish (v : JsVal) (name : string) :
  nullish v = true -> exists msg, get_prop v name = Thrown (TypeError msg).
Proof. destruct v; try discriminate; intros _; by eexists. Qed.

Lemma destructure_nullish (v : JsVal) (name : string) :
  nullish v = true -> exists msg, destructure v name = Thrown (TypeError msg).
Proof. destruct v; try discriminate; intros _; by eexists. Qed.

Lemma get_index_nullish (v : JsVal) (i : nat) :
  nullish v = true -> exists msg, get_index v i = Thrown (TypeError msg).
Proof. destruct v; try discriminate; intros _; by eexists. Qed.

Lemma get_index_defined (v : JsVal) (i : nat) :
  nullish v = false -> exists x, get_index v i = Returned x.
Proof. destruct v; try discriminate; intros _; by eexists. Qed.

(** X11. The health check writes to the log exactly when the query
    fails, and then exactly the error of the query, once; whatever it
    answers, and also when it throws. *)
Theorem X11_healthz_logs_exactly_the_failed_query
  (query : Outcome JsVal) (logger_error_value : JsVal) (log : list Event) :
  (healthz query logger_error_value log).2
  = log ++ match query with
           | Returned _ => []
           | Thrown e => [LogError e]
           end.
Proof.
  unfold healthz, emit, await, respond, mbind, M_bind, mret, M_ret.
  destruct query as [result|e]; cbn.
  - rewrite app_nil_r.
    destruct (destructure result "rows") as [rows|]; [|reflexivity].
    destruct (truthy rows); cbn; [|reflexivity].
    destruct (get_index rows 0) as [row|]; [|reflexivity].
    by destruct (get_prop row "version").
  - destruct (destructure logger_error_value "rows") as [rows|];
      [|reflexivity].
    destruct (truthy rows); cbn; [|reflexivity].
    destruct (get_index rows 0) as [row|]; [|reflexivity].
    by destruct (get_prop row "version").
Qed.

(** X12. The health check has three outcomes and no other: the 500 with
    [no rows returned from database], a 200 whose body starts with
    [version ], or a [TypeError] thrown out of the handler with no
    response sent. *)
Theorem X12_healthz_outcomes
  (query : Outcome JsVal) (logger_error_value : JsVal) (log : list Event) :
  (healthz query logger_error_value log).1
    = Returned (mkResponse 500 (BodyText "no rows returned from database"))
  \/ (exists v,
        (healthz query logger_error_value log).1
        = Returned (mkResponse 200 (BodyText ("version " +:+ v))))
  \/ (exists msg,
        (healthz query logger_error_value log).1 = Thrown (TypeError msg)).
Proof.
  assert (Hrest : forall result log0,
    (let rest : M Response :=
       rows ← await (destructure result "rows");
       if negb (truthy rows) then
         respond 500 (BodyText "no rows returned from database")
       else
         row ← await (get_index rows 0);
         version ← await (get_prop row "version");
         respond 200 (BodyText ("version " +:+ to_string version)) in
     (rest log0).1
       = Returned (mkResponse 500 (BodyText "no rows returned from database"))
     \/ (exists v, (rest log0).1
                   = Returned (mkResponse 200 (BodyText ("version " +:+ v))))
     \/ (exists msg, (rest log0).1 = Thrown (TypeError msg)))).
  { intros result log0. cbv zeta.
    unfold emit, await, respond, mbind, M_bind, mret, M_ret.
    destruct (nullish result) eqn:Hres.
    { destruct (destructure_nullish result "rows" Hres) as [msg ->].
      right. right. by exists msg. }
    rewrite (destructure_defined _ _ Hres).
    destruct (truthy (get_prop_opt result "rows")) eqn:Hrows; cbn;
      [|by left].
    assert (Hn : nullish (get_prop_opt result "rows") = false).
    { by destruct (get_prop_opt result "rows"). }
    destruct (get_index_defined _ 0%nat Hn) as [row ->].
    destruct (nullish row) eqn:Hrow.
    - destruct (get_prop_nullish row "version" Hrow) as [msg ->].
      right. right. by exists msg.
    - rewrite (get_prop_defined _ _ Hrow). right. left. by eexists. }
  unfold healthz. destruct query as [result|e].
  - exact (Hrest result log).
  - exact (Hrest logger_error_value (log ++ [LogError e])).
Qed.

(** X13. When the query resolves with an object whose [rows] is an array
    that starts with a row whose [version] is a string, a safe integer or
    missing, the answer is 200 with [version ] followed by that string,
    by the integer in decimal, or by [undefined]; only the first row
    counts. *)
Theorem X13_healthz_version_of_first_row
  (result row : JsVal) (more : list JsVal) (logger_error_value : JsVal)
  (log : list Event) :
  destructure result "rows" = Returned (JArr (row :: more)) ->
  nullish row = false ->
  get_prop_opt row "version" = JUndefined
    \/ (exists text, get_prop_opt row "version" = JStr text)
    \/ (exists n, get_prop_opt row "version" = JNum n
                  /\ Z.abs n <= 9007199254740991) ->
  healthz (Returned result) logger_error_value log
  = (Returned
       (mkResponse 200
          (BodyText ("version " +:+ to_string (get_prop_opt row "version")))),
     log).
Proof.
  intros Hrows Hrow _.
  unfold healthz, emit, await, respond, mbind, M_bind, mret, M_ret.
  rewrite Hrows. cbn. by rewrite (get_prop_defined _ _ Hrow).
Qed.

Lemma X13_healthz_version_of_first_row_witness :
  destructure (one_row_result (JStr "2.31.0")) "rows"
    = Returned (JArr [JObj [("version", JStr "2.31.0")]])
  /\ nullish (JObj [("version", JStr "2.31.0")]) = false
  /\ healthz (Returned (one_row_result (JStr "2.31.0"))) JUndefined []
     = (Returned (mkResponse 200 (BodyText "version 2.31.0")), []).
Proof.
  split; [reflexivity|]. split; [reflexivity|].
  exact (X13_healthz_version_of_first_row (one_row_result (JStr "2.31.0"))
           (JObj [("version", JStr "2.31.0")]) [] JUndefined []
           eq_refl eq_refl
           (or_intror (or_introl (ex_intro _ "2.31.0" eq_refl)))).
Defined.

(** X14. When the query fails, what the handler does after logging
    depends on the value of the call [logger.error(e)]: on [undefined] or
    [null] the destructuring throws a [TypeError]; on a value without a
    truthy [rows] the answer is the 500. *)
Theorem X14_healthz_failed_query
  (e : JsError) (logger_error_value : JsVal) (log : list Event) :
  (nullish logger_error_value = true ->
   exists msg,
     healthz (Thrown e) logger_error_value log
     = (Thrown (TypeError msg), log ++ [LogError e]))
  /\ (nullish logger_error_value = false ->
      truthy (get_prop_opt logger_error_value "rows") = false ->
      healthz (Thrown e) logger_error_value log
      = (Returned (mkResponse 500 (BodyText "no rows returned from database")),
         log ++ [LogError e])).
Proof.
  unfold healthz, emit, await, respond, mbind, M_bind, mret, M_ret.
  split.
  - intros Hn. destruct (destructure_nullish _ "rows" Hn) as [msg ->].
    by exists msg.
  - intros Hn Hrows. rewrite (destructure_defined _ _ Hn). by rewrite Hrows.
Qed.

(** ** Responses and the log *)

Lemma M_bind_thrown {A B : Type} (m : M A) (f : A -> M B)
  (log log' : list Event) (e : JsError) :
  (m ≫= f) log = (Thrown e, log') ->
  m log = (Thrown e, log')
  \/ exists a log1, m log = (Returned a, log1) /\ f a log1 = (Thrown e, log').
Proof.
  unfold mbind, M_bind. destruct (m log) as [[a|e0] log1].
  - intros H. right. by exists a, log1.
  - intros [= -> ->]. by left.
Qed.

Lemma await_log {A : Type} (p o : Outcome A) (log log' : list Event) :
  await p log = (o, log') -> log' = log.
Proof. unfold await. by intros [= _ ->]. Qed.

Lemma respond_inv (code : Z) (b : Body) (o : Outcome Response)
  (log log' : list Event) :
  respond code b log = (o, log') ->
  o = Returned (mkResponse code b) /\ log' = log.
Proof. unfold respond, mret, M_ret. by intros [= <- <-]. Qed.

Lemma request_limit_log (c : Collaborators) (req : Request) (o : Outcome Z)
  (log log' : list Event) :
  request_limit c req log = (o, log') -> log' = log.
Proof.
  unfold request_limit, await, mbind, M_bind, mret, M_ret.
  destruct (validateLimit c _); by intros [= _ ->].
Qed.

Lemma request_interval_log (c : Collaborators) (req : Request)
  (o : Outcome JsVal) (log log' : list Event) :
  request_interval c req log = (o, log') -> log' = log.
Proof.
  unfold request_interval, await, mbind, M_bind, mret, M_ret.
  destruct (get_prop _ _); [|by intros [= _ ->]].
  destruct (validateInterval c _); by intros [= _ ->].
Qed.

Lemma createFeeds_log_inv (r : FeedReads) (limit : Z) (o : Outcome Feeds)
  (log log' : list Event) :
  createFeeds r limit log = (o, log') ->
  log' = log ++ [SpanStart "createFeeds"; SpanEnd].
Proof. intros H. rewrite <- (createFeeds_log r limit log). by rewrite H. Qed.

Lemma spawn_createFeeds_log (r : FeedReads) (limit : Z)
  (o : Outcome (Outcome Feeds)) (log log' : list Event) :
  spawn (createFeeds r limit) log = (o, log') ->
  log' = log ++ [SpanStart "createFeeds"; SpanEnd].
Proof.
  unfold spawn. destruct (createFeeds r limit log) as [o0 log0] eqn:H.
  intros [= _ <-]. by apply createFeeds_log_inv in H.
Qed.

(** A handler wrapped in the [try]/[catch] of the source responds with the
    response of its body, or logs the exception of the body and responds
    with the 500 made from it. *)
Lemma try_catch_logged (body : M Response) (reason : JsError -> string)
  (log : list Event) :
  exists resp log',
    try_catch body
      (fun e => emit (LogError e);; respond 500 (BodyReason (reason e))) log
    = (Returned resp, log')
    /\ (body log = (Returned resp, log')
        \/ exists e log1,
             body log = (Thrown e, log1)
             /\ resp = mkResponse 500 (BodyReason (reason e))
             /\ log' = log1 ++ [LogError e]).
Proof.
  unfold try_catch. destruct (body log) as [[resp|e] log1].
  - exists resp, log1. split; [reflexivity | by left].
  - eexists _, _. split; [reflexivity|]. right. by exists e, log1.
Qed.

(** The log after one step of a handler. *)
Ltac step_log H :=
  first
    [ apply respond_inv in H as [? ?]
    | apply await_log in H
    | apply request_limit_log in H
    | apply request_interval_log in H
    | apply spawn_createFeeds_log in H
    | apply createFeeds_log_inv in H ];
  subst.

(** The log along a body that returned. *)
Ltac trace_returned H :=
  let Hs := fresh "Hstep" in
  first
    [ step_log H
    | apply M_bind_returned in H as (? & ? & Hs & H);
      step_log Hs; trace_returned H ].

(** The log along a body that threw, one case for each step that can. *)
Ltac trace_thrown H :=
  let Hs := fresh "Hstep" in
  first
    [ step_log H
    | apply M_bind_thrown in H as [H | (? & ? & Hs & H)];
      [ step_log H | step_log Hs; trace_thrown H ] ].

(** X15. The handler of [/feeds] always responds. It answers 200 with the
    feeds and logs nothing, or it logs the error, once, and answers 500
    with [error getting feeds: ] followed by the message of that error. *)
Theorem X15_feeds_handler_logs_what_it_fails_on
  (c : Collaborators) (r : FeedReads) (req : Request) (log : list Event) :
  exists resp log',
    feeds_handler c r req log = (Returned resp, log')
    /\ ((exists fs,
           resp = mkResponse 200 (BodyFeeds fs)
           /\ log' = log ++ [SpanStart "createFeeds"; SpanEnd])
        \/ exists e log1,
             resp = mkResponse 500
                      (BodyReason ("error getting feeds: " +:+ err_message e))
             /\ log' = log1 ++ [LogError e]
             /\ (log1 = log
                 \/ log1 = log ++ [SpanStart "createFeeds"; SpanEnd])).
Proof.
  unfold feeds_handler.
  destruct (try_catch_logged
    (limit ← request_limit c req;
     feeds ← createFeeds r limit;
     respond 200 (BodyFeeds feeds))
    (fun e => "error getting feeds: " +:+ err_message e) log)
    as (resp & log' & Hresp & [Hbody | (e & log1 & Hbody & -> & ->)]).
  - exists resp, log'. split; [exact Hresp|]. left.
    trace_returned Hbody.
    match goal with H : Returned _ = Returned _ |- _ => injection H as -> end.
    by eexists.
  - eexists _, _. split; [exact Hresp|]. right. exists e, log1.
    split; [reflexivity|]. split; [reflexivity|].
    trace_thrown Hbody; first [done | by left | by right].
Qed.

(** X16. The handler of [/] always responds. It answers 200 with the
    popular featured apps and the feeds and logs nothing, or it logs the
    error, once, and answers 500 with [error running query: ] followed by
    the message of that error. *)
Theorem X16_home_handler_logs_what_it_fails_on
  (c : Collaborators) (r : FeedReads) (req : Request) (log : list Event) :
  exists resp log',
    home_handler c r req log = (Returned resp, log')
    /\ ((exists popular fs,
           resp = mkResponse 200 (BodyHome popular fs)
           /\ log' = log ++ [SpanStart "createFeeds"; SpanEnd])
        \/ exists e log1,
             resp = mkResponse 500
                      (BodyReason ("error running query: " +:+ err_message e))
             /\ log' = log1 ++ [LogError e]
             /\ (log1 = log
                 \/ log1 = log ++ [SpanStart "createFeeds"; SpanEnd])).
Proof.
  unfold home_handler.
  match goal with
  | |- context [try_catch ?body _ log] =>
      destruct (try_catch_logged body
                  (fun e => "error running query: " +:+ err_message e) log)
        as (resp & log' & Hresp & [Hbody | (e & log1 & Hbody & -> & ->)])
  end.
  - exists resp, log'. split; [exact Hresp|]. left.
    cbv zeta in Hbody. trace_returned Hbody.
    match goal with H : Returned _ = Returned _ |- _ => injection H as -> end.
    by eexists _, _.
  - eexists _, _. split; [exact Hresp|]. right. exists e, log1.
    split; [reflexivity|]. split; [reflexivity|].
    cbv zeta in Hbody.
    trace_thrown Hbody; first [done | by left | by right].
Qed.

(** X17. When the interval or the limit of the request is refused
    ([validateInterval] rejects, or [validateLimit] throws), the handler
    of [/users/:username] answers 500 with [error running query: ]
    followed by the error printed with its name (the other two handlers
    print the message alone), and logs that error once; no data source
    has been called and no span started. *)
Theorem X17_users_handler_refused_parameters
  (c : Collaborators) (r : FeedReads) (req : Request) (log : list Event)
  (raw : JsVal) (e : JsError) :
  get_prop (req_query req) "start-date-interval" = Returned raw ->
  validateInterval c raw = Thrown e
    \/ (exists validated_interval,
          validateInterval c raw = Returned validated_interval
          /\ validateLimit c (get_prop_opt (req_query req) "limit")
             = Thrown e) ->
  users_handler c r req log
  = (Returned
       (mkResponse 500
          (BodyReason ("error running query: " +:+ error_to_string e))),
     log ++ [LogError e]).
Proof.
  intros Hraw H.
  unfold users_handler, try_catch, request_interval, request_limit, await,
    emit, respond.
  unfold mbind, M_bind, mret, M_ret. rewrite Hraw.
  destruct H as [-> | (validated_interval & -> & ->)]; reflexivity.
Qed.

Lemma X17_users_handler_refused_parameters_witness :
  users_handler refusing_collaborators videos_read_fails plain_request []
  = (Returned
       (mkResponse 500
          (BodyReason "error running query: Error: invalid interval")),
     [LogError (Error "invalid interval")]).
Proof.
  exact (X17_users_handler_refused_parameters refusing_collaborators
           videos_read_fails plain_request [] JUndefined
           (Error "invalid interval") eq_refl (or_introl eq_refl)).
Defined.

(** ** What the responses carry *)

Lemma createFeeds_returned_inv (r : FeedReads) (limit : Z) (fs : Feeds)
  (log log' : list Event) :
  createFeeds r limit log = (Returned fs, log') ->
  exists ln le lv,
    news_getItems r = Returned ln
    /\ events_getItems r = Returned le
    /\ videos_getItems r = Returned lv
    /\ fs = mkFeeds (slice0 ln limit) (slice0 le limit) (slice0 lv limit).
Proof.
  unfold createFeeds, try_finally, emit, await, mbind, M_bind, mret, M_ret.
  destruct (news_getItems r) as [ln|]; cbn; [|discriminate].
  destruct (events_getItems r) as [le|]; cbn; [|discriminate].
  destruct (videos_getItems r) as [lv|]; cbn; [|discriminate].
  intros [= <- _]. by exists ln, le, lv.
Qed.

Lemma createFeeds_reads (r : FeedReads) (ln le lv : list Item) (limit : Z)
  (log : list Event) :
  news_getItems r = Returned ln -> events_getItems r = Returned le ->
  videos_getItems r = Returned lv ->
  createFeeds r limit log
  = (Returned (mkFeeds (slice0 ln limit) (slice0 le limit) (slice0 lv limit)),
     log ++ [SpanStart "createFeeds"; SpanEnd]).
Proof.
  destruct r as [n e v il]. cbn. intros -> -> ->.
  apply createFeeds_all_read.
Qed.

Lemma request_limit_returned (c : Collaborators) (req : Request) (limit : Z)
  (log log' : list Event) :
  request_limit c req log = (Returned limit, log') ->
  exists validated,
    validateLimit c (get_prop_opt (req_query req) "limit") = Returned validated
    /\ limit = default 10 validated.
Proof.
  unfold request_limit, await, mbind, M_bind, mret, M_ret.
  destruct (validateLimit c _) as [validated|]; [|discriminate].
  intros [= <- _]. by exists validated.
Qed.

Lemma spawn_returned {A : Type} (m : M A) (o : Outcome A)
  (log log' : list Event) :
  spawn m log = (Returned o, log') -> m log = (o, log').
Proof. unfold spawn. destruct (m log). by intros [= -> ->]. Qed.

Lemma try_catch_status_200 (body : M Response) (reason : JsError -> string)
  (log log' : list Event) (resp : Response) :
  try_catch body
    (fun e => emit (LogError e);; respond 500 (BodyReason (reason e))) log
  = (Returned resp, log') ->
  status resp = 200 ->
  body log = (Returned resp, log').
Proof.
  unfold try_catch. destruct (body log) as [[resp0|e] log1]; [done|].
  unfold emit, respond, mbind, M_bind, mret, M_ret.
  intros [= <- _] H. discriminate H.
Qed.

(** X18. When [validateLimit] returns and the three caches are read, the
    handler of [/feeds] answers 200 with each feed cut to the validated
    limit, and to 10 items when [validateLimit] returns no limit. *)
Theorem X18_feeds_handler_default_limit
  (c : Collaborators) (r : FeedReads) (req : Request) (log : list Event)
  (validated : option Z) (ln le lv : list Item) :
  validateLimit c (get_prop_opt (req_query req) "limit") = Returned validated ->
  news_getItems r = Returned ln ->
  events_getItems r = Returned le ->
  videos_getItems r = Returned lv ->
  feeds_handler c r req log
  = (Returned
       (mkResponse 200
          (BodyFeeds (mkFeeds (slice0 ln (default 10 validated))
                              (slice0 le (default 10 validated))
                              (slice0 lv (default 10 validated))))),
     log ++ [SpanStart "createFeeds"; SpanEnd])
  /\ (validated = None ->
      slice0 ln (default 10 validated) = take 10 ln
      /\ slice0 le (default 10 validated) = take 10 le
      /\ slice0 lv (default 10 validated) = take 10 lv).
Proof.
  intros Hlimit Hn He Hv. split.
  - unfold feeds_handler, try_catch, request_limit, await, respond.
    unfold mbind, M_bind, mret, M_ret. rewrite Hlimit.
    by rewrite (createFeeds_reads r ln le lv _ _ Hn He Hv).
  - intros ->. cbn [default from_option id].
    by rewrite !slice0_positive by lia.
Qed.

Lemma X18_feeds_handler_default_limit_witness :
  feeds_handler steady_collaborators
    (mkReads (Returned (item_at 110 News :: ten_news)) (Returned [])
             (Returned []) (Returned []))
    plain_request []
  = (Returned
       (mkResponse 200
          (BodyFeeds (mkFeeds (item_at 110 News :: take 9 ten_news) [] []))),
     [SpanStart "createFeeds"; SpanEnd]).
Proof.
  exact (proj1 (X18_feeds_handler_default_limit steady_collaborators
                  (mkReads (Returned (item_at 110 News :: ten_news))
                           (Returned []) (Returned []) (Returned []))
                  plain_request [] None (item_at 110 News :: ten_news) [] []
                  eq_refl eq_refl eq_refl eq_refl)).
Defined.

(** X19. A 200 from [/users/:username] is possible only when
    [validateLimit] returned and all three feed caches were read, and it
    carries the feeds cut to the limit of the request (10 when
    [validateLimit] returned none); the analyses sources were called with
    that same limit, and [analyses.recent] and [analyses.running] are the
    [analyses] properties of what they resolved with, [undefined] when
    there is no such property. *)
Theorem X19_users_dashboard_contents
  (c : Collaborators) (r : FeedReads) (req : Request) (log log' : list Event)
  (resp : Response) :
  users_handler c r req log = (Returned resp, log') ->
  status resp = 200 ->
  exists d validated ln le lv recent running,
    body resp = BodyDashboard d
    /\ validateLimit c (get_prop_opt (req_query req) "limit")
       = Returned validated
    /\ news_getItems r = Returned ln
    /\ events_getItems r = Returned le
    /\ videos_getItems r = Returned lv
    /\ feeds d = mkFeeds (slice0 ln (default 10 validated))
                         (slice0 le (default 10 validated))
                         (slice0 lv (default 10 validated))
    /\ recentAnalysesData c (req_username req) (default 10 validated)
       = Returned recent
    /\ analyses_recent d = get_prop_opt recent "analyses"
    /\ runningAnalysesData c (req_username req) (default 10 validated)
       = Returned running
    /\ analyses_running d = get_prop_opt running "analyses".
Proof.
  intros Hresp H200. unfold users_handler in Hresp.
  apply try_catch_status_200 in Hresp as Hbody; [|exact H200].
  cbv zeta in Hbody.
  apply M_bind_returned in Hbody as (interval & log1 & _ & Hbody).
  apply M_bind_returned in Hbody as (limit & log2 & Hlimit & Hbody).
  apply request_limit_returned in Hlimit as (validated & Hvalidated & ->).
  apply M_bind_returned in Hbody as (promise & log3 & Hspawn & Hbody).
  apply spawn_returned in Hspawn.
  repeat (apply M_bind_returned in Hbody as (? & ? & ? & Hbody)).
  repeat match goal with
         | H : await _ _ = (Returned _, _) |- _ =>
             apply await_returned in H as [? ?]
         end.
  subst. apply createFeeds_returned_inv in Hspawn
    as (ln & le & lv & Hn & He & Hv & ->).
  unfold respond, mret, M_ret in Hbody. injection Hbody as <- _.
  eexists _, validated, ln, le, lv, _, _.
  repeat split; try eassumption; reflexivity.
Qed.

Lemma X19_users_dashboard_contents_witness :
  exists d validated ln le lv recent running,
    BodyDashboard
      (mkDashboard (JArr []) (JArr []) (JArr []) (JArr []) (JArr [])
         (JArr [])
         [ item_at 3 InstantLaunch; item_at 2 InstantLaunch;
           item_at 1 InstantLaunch ]
         (mkFeeds [item_at 20 News] [item_at 20 News] [item_at 20 News]))
    = BodyDashboard d
    /\ validateLimit steady_collaborators
         (get_prop_opt (req_query limit_one_request) "limit")
       = Returned validated
    /\ news_getItems (reads_of serving_world) = Returned ln
    /\ events_getItems (reads_of serving_world) = Returned le
    /\ videos_getItems (reads_of serving_world) = Returned lv
    /\ feeds d = mkFeeds (slice0 ln (default 10 validated))
                         (slice0 le (default 10 validated))
                         (slice0 lv (default 10 validated))
    /\ recentAnalysesData steady_collaborators (req_username limit_one_request)
         (default 10 validated) = Returned recent
    /\ analyses_recent d = get_prop_opt recent "analyses"
    /\ runningAnalysesData steady_collaborators
         (req_username limit_one_request) (default 10 validated)
       = Returned running
    /\ analyses_running d = get_prop_opt running "analyses".
Proof.
  exact (X19_users_dashboard_contents steady_collaborators
           (reads_of serving_world) limit_one_request []
           [SpanStart "createFeeds"; SpanEnd]
           (mkResponse 200
              (BodyDashboard
                 (mkDashboard (JArr []) (JArr []) (JArr []) (JArr [])
                    (JArr []) (JArr [])
                    [ item_at 3 InstantLaunch; item_at 2 InstantLaunch;
                      item_at 1 InstantLaunch ]
                    (mkFeeds [item_at 20 News] [item_at 20 News]
                             [item_at 20 News]))))
           eq_refl eq_refl).
Defined.

(** X20. When every promise the handler of [/users/:username] awaits is
    fulfilled, it answers 200 with the dashboard assembled from their
    values: every data source is called with the user of the request and
    with one limit, the public app ids are fetched once and passed to the
    three app listings and to the metadata filter, whose result goes to
    the popular featured listing; the instant launches are passed on
    whole and the feeds cut to the limit. *)
Theorem X20_users_handler_assembles_the_dashboard
  (c : Collaborators) (r : FeedReads) (req : Request) (log : list Event)
  (raw validated_interval ids featured : JsVal) (validated : option Z)
  (ln le lv launches : list Item)
  (added public used popular recent running : JsVal) :
  let user := req_username req in
  let limit := default 10 validated in
  let interval :=
    js_coalesce validated_interval (DEFAULT_START_DATE_INTERVAL c) in
  get_prop (req_query req) "start-date-interval" = Returned raw ->
  validateInterval c raw = Returned validated_interval ->
  validateLimit c (get_prop_opt (req_query req) "limit") = Returned validated ->
  il_getItems r = Returned launches ->
  news_getItems r = Returned ln ->
  events_getItems r = Returned le ->
  videos_getItems r = Returned lv ->
  getPublicAppIDs c = Returned ids ->
  recentlyAddedData c user limit ids = Returned added ->
  publicAppsData c user limit ids = Returned public ->
  getRecentlyUsedApps c user limit interval ids = Returned used ->
  getFilteredTargetIds c ["app"] ids (FEATURED_APPS_AVUS c) user
    = Returned featured ->
  popularFeaturedData c user limit featured interval = Returned popular ->
  recentAnalysesData c user limit = Returned recent ->
  runningAnalysesData c user limit = Returned running ->
  users_handler c r req log
  = (Returned
       (mkResponse 200
          (BodyDashboard
             (mkDashboard added public used popular
                (get_prop_opt recent "analyses")
                (get_prop_opt running "analyses")
                launches
                (mkFeeds (slice0 ln limit) (slice0 le limit)
                         (slice0 lv limit))))),
     log ++ [SpanStart "createFeeds"; SpanEnd]).
Proof.
  intros user limit interval Hraw Hinterval Hlimit Hil Hn He Hv Hids Hadded
    Hpublic Hused Hfeatured Hpopular Hrecent Hrunning.
  subst user limit interval.
  unfold users_handler, try_catch, request_interval, request_limit, spawn,
    await, respond.
  unfold mbind, M_bind, mret, M_ret.
  rewrite Hraw, Hinterval, Hlimit.
  rewrite (createFeeds_reads r ln le lv _ _ Hn He Hv).
  rewrite Hids, Hfeatured, Hadded, Hpublic, Hused, Hpopular, Hrecent,
    Hrunning, Hil.
  reflexivity.
Qed.

Lemma X20_users_handler_assembles_the_dashboard_witness :
  users_handler steady_collaborators (reads_of serving_world)
                limit_one_request []
  = (Returned
       (mkResponse 200
          (BodyDashboard
             (mkDashboard (JArr []) (JArr []) (JArr []) (JArr [])
                (JArr []) (JArr [])
                [ item_at 3 InstantLaunch; item_at 2 InstantLaunch;
                  item_at 1 InstantLaunch ]
                (mkFeeds [item_at 20 News] [item_at 20 News]
                         [item_at 20 News])))),
     [ SpanStart "createFeeds"; SpanEnd ]).
Proof.
  exact (X20_users_handler_assembles_the_dashboard steady_collaborators
           (reads_of serving_world) limit_one_request []
           JUndefined JUndefined (JArr []) (JArr []) (Some 1)
           [item_at 20 News; item_at 10 News]
           [item_at 20 News; item_at 10 News]
           [item_at 20 News; item_at 10 News]
           [ item_at 3 InstantLaunch; item_at 2 InstantLaunch;
             item_at 1 InstantLaunch ]
           (JArr []) (JArr []) (JArr []) (JArr [])
           (JObj [("analyses", JArr [])]) (JObj [("analyses", JArr [])])
           eq_refl eq_refl eq_refl eq_refl eq_refl eq_refl eq_refl eq_refl
           eq_refl eq_refl eq_refl eq_refl eq_refl eq_refl eq_refl).
Defined.

(** X21. A request whose [query] is [undefined] or [null]: the handler of
    [/users/:username] answers 500 with the [TypeError] of reading
    [start-date-interval], before any data source is called and without
    starting the feeds span; the handler of [/feeds], which reads the
    limit through optional chaining only, answers as for a request without
    a limit. *)
Theorem X21_request_without_query
  (c : Collaborators) (r : FeedReads) (req : Request) (log : list Event) :
  nullish (req_query req) = true ->
  (exists msg,
     users_handler c r req log
     = (Returned
          (mkResponse 500
             (BodyReason ("error running query: "
                            +:+ error_to_string (TypeError msg)))),
        log ++ [LogError (TypeError msg)]))
  /\ feeds_handler c r req log
     = feeds_handler c r (mkRequest (req_username req) (JObj [])) log.
Proof.
  intros Hq. split.
  - destruct (get_prop_nullish _ "start-date-interval" Hq) as [msg Hmsg].
    exists msg.
    unfold users_handler, try_catch, request_interval, await, emit, respond.
    unfold mbind, M_bind, mret, M_ret. by rewrite Hmsg.
  - unfold feeds_handler, request_limit. cbn [req_query].
    by destruct (req_query req).
Qed.

Lemma X21_request_without_query_witness :
  nullish (req_query (mkRequest "ipcdev" JUndefined)) = true
  /\ exists msg,
      users_handler steady_collaborators (reads_of serving_world)
                    (mkRequest "ipcdev" JUndefined) []
      = (Returned
           (mkResponse 500
              (BodyReason ("error running query: "
                             +:+ error_to_string (TypeError msg)))),
         [LogError (TypeError msg)]).
Proof.
  split; [reflexivity|].
  exact (proj1 (X21_request_without_query steady_collaborators
                  (reads_of serving_world) (mkRequest "ipcdev" JUndefined)
                  [] eq_refl)).
Defined.
